(** * Nigerian Health Infrastructure Engine: the emergency finder of [app.py]

    A shallow embedding of the proximity resolution code of [src/app.py]
    (data loading, geocoding, candidate lookup by state, ranking by
    geodesic distance and the optional drive-time lookup) together with the
    properties the specification states about it.

    Python floats are IEEE-754 binary64 numbers and are modelled by the
    Standard Library's [spec_float] at precision 53 and maximal exponent
    1024.  A missing numeric cell of a pandas frame is the float NaN, as in
    pandas itself.  The services the script calls (the CSV reader, the
    Nominatim geocoder, the OpenRouteService client, geopy's geodesic
    distance and pandas' [sort_values]) are parameters of the development:
    each theorem holds for every behaviour of those services that fits the
    stated interface. *)

From Stdlib Require Import String ZArith Bool List Lia Sorted Permutation.
From Stdlib Require Import Floats.SpecFloat.
Import ListNotations.

Set Implicit Arguments.

(** ** Python floats *)

Module PyFloat.

Definition float : Type := spec_float.

Definition prec : Z := 53.
Definition emax : Z := 1024.

(** [float(z)] for an integer literal of the script. *)
Definition of_Z (z : Z) : float := binary_normalize prec emax z 0 false.

Definition zero : float := S754_zero false.

Definition div (x y : float) : float := SFdiv prec emax x y.
Definition eqb (x y : float) : bool := SFeqb x y.
Definition leb (x y : float) : bool := SFleb x y.

(** [math.isnan], which is also pandas' [isna] on a float cell. *)
Definition isnan (x : float) : bool :=
  match x with S754_nan => true | _ => false end.

Definition isinf (x : float) : bool :=
  match x with S754_infinity _ => true | _ => false end.

(** [bool(x)]: a float is falsy exactly when it compares equal to zero
    (either sign); NaN is truthy. *)
Definition truthy (x : float) : bool := negb (eqb x zero).

(** The order of an ascending pandas sort with [na_position='last']: the
    usual order on numbers, every NaN after every number. *)
Definition ascending (x y : float) : bool := isnan y || leb x y.

(** Equal keys of the ascending order: neither comes strictly first. *)
Definition tied (x y : float) : bool := ascending x y && ascending y x.

(** A lexicographic code that orders the numbers as [SFcompare] does. *)
Definition code (x : float) : Z * Z * Z :=
  match x with
  | S754_nan => (3, 0, 0)
  | S754_infinity true => (-2, 0, 0)
  | S754_finite true m e => (-1, - e, - Zpos m)
  | S754_zero _ => (0, 0, 0)
  | S754_finite false m e => (1, e, Zpos m)
  | S754_infinity false => (2, 0, 0)
  end%Z.

Definition lex_le (p q : Z * Z * Z) : Prop :=
  let '(a, b, c) := p in
  let '(a', b', c') := q in
  (a < a' \/ (a = a' /\ (b < b' \/ (b = b' /\ c <= c'))))%Z.

End PyFloat.

Import PyFloat.

(** ** Python values and calls that may raise *)

Module Py.

(** The outcome of a call into a library: a value, or a raised exception
    with its text.  Where the script catches, it does so with a bare
    [except], so the class of the exception plays no role. *)
Inductive result (A : Type) : Type :=
| Return (a : A)
| Raise (e : string).

Arguments Raise {A} e.

(** The objects a decoded JSON response is made of.  The items of a
    dictionary are listed with distinct keys. *)
#[local] Unset Elimination Schemes.
Inductive value : Type :=
| PNone
| PBool (b : bool)
| PInt (z : Z)
| PFloat (f : float)
| PStr (s : string)
| PList (l : list value)
| PDict (items : list (string * value)).
#[local] Set Elimination Schemes.

(** [bool(s)] for a string. *)
Definition truthy_str (s : string) : bool :=
  match s with EmptyString => false | String _ _ => true end.

Fixpoint lookup (k : string) (items : list (string * value)) : option value :=
  match items with
  | [] => None
  | (k', v) :: rest => if String.eqb k k' then Some v else lookup k rest
  end.

(** [v[k]] for a string key: [None] stands for the KeyError of a
    dictionary without the key and for the TypeError of every other
    object. *)
Definition getitem (v : value) (k : string) : option value :=
  match v with
  | PDict items => lookup k items
  | _ => None
  end.

(** [v[0]]: the first element of a list, the first character of a
    string; [None] stands for the IndexError, KeyError or TypeError of
    the other cases (the keys of a decoded JSON object are strings). *)
Definition first (v : value) : option value :=
  match v with
  | PList (x :: _) => Some x
  | PStr (String c _) => Some (PStr (String c EmptyString))
  | _ => None
  end.

Definition int_as_float (z : Z) : float :=
  match z with
  | Z0 => S754_zero false
  | Zpos p => S754_finite false p 0
  | Zneg p => S754_finite true p 0
  end.

(** [z / d] on integers: the quotient rounded once to a float; a
    quotient beyond the floats raises OverflowError. *)
Definition int_truediv (z d : Z) : option float :=
  let q := PyFloat.div (int_as_float z) (int_as_float d) in
  if isinf q then None else Some q.

(** [v / d] for a non-zero integer literal [d]; [None] stands for the
    TypeError of a value that is not a number. *)
Definition truediv (v : value) (d : Z) : option float :=
  match v with
  | PFloat f => Some (PyFloat.div f (of_Z d))
  | PInt z => int_truediv z d
  | PBool b => int_truediv (if b then 1 else 0) d
  | _ => None
  end.

End Py.

Import Py.

(** ** The facility table *)

(** A text cell of the table: [None] is a missing cell. *)
Definition cell : Type := option string.

(** One row of [nigeria_health_facilities.csv], with the columns
    [load_data] reads.  A missing coordinate is NaN. *)
Record Facility : Type := {
  facility_name : cell;
  facility_level : cell;
  ownership : cell;
  ward : cell;
  lga : cell;
  state : cell;
  latitude : float;
  longitude : float
}.

Definition DataFrame : Type := list Facility.

(** A point as the script passes it around, a pair of floats. *)
Definition coords : Type := (float * float)%type.

(** What the page shows. *)
Inductive metrics : Type :=
| Drive (drive_mins drive_km : float)
    (* "Est. Time" and "Drive Dist" *)
| StraightLine (geo_dist : float).
    (* "Straight Line" and the caption "Traffic data disabled" *)

Record expander : Type := {
  exp_name : cell;
  exp_level : cell;
  exp_metrics : metrics;
  exp_destination : coords  (* latitude, longitude of the "GO NOW" link *)
}.

Inductive ui : Type :=
| Success (u_lat u_lon : float)   (* st.success: "Found: lat, lon" *)
| Error (msg : string)            (* st.error *)
| Subheader (text : string)       (* st.subheader *)
| Expander (e : expander)         (* st.expander with its three columns *)
| Uncaught (e : string).
    (* an exception that nothing catches: Streamlit shows it and the run
       of the script ends there *)

(** [df.dropna(subset=['latitude', 'longitude'])] *)
Definition notna (r : Facility) : bool :=
  negb (isnan (latitude r)) && negb (isnan (longitude r)).

Definition dropna (df : DataFrame) : DataFrame := filter notna df.

(** [load_data], given what [pd.read_csv] does: the frame without the rows
    that miss a coordinate, or an error message and the empty frame. *)
Definition load_data (read_csv : result DataFrame) : list ui * DataFrame :=
  match read_csv with
  | Return df => ([], dropna df)
  | Raise e => ([Error ("❌ Data Error: " ++ e)%string], [])
  end.

(** Latitude and longitude of a point on Earth, in degrees. *)
Definition in_range (lo hi x : float) : bool :=
  PyFloat.leb lo x && PyFloat.leb x hi.

Definition on_earth (r : Facility) : bool :=
  in_range (of_Z (-90)) (of_Z 90) (latitude r)
  && in_range (of_Z (-180)) (of_Z 180) (longitude r).

(** ** Ranked rows and the sort *)

(** A candidate row with its added [geo_dist] column. *)
Record Ranked : Type := {
  row : Facility;
  geo_dist : float
}.

Definition by_geo_dist (a b : Ranked) : Prop :=
  ascending (geo_dist a) (geo_dist b) = true.

(** What [DataFrame.sort_values('geo_dist')] promises with its default
    arguments ([ascending=True], [kind='quicksort'], [na_position='last']):
    the same rows, in ascending order of the column.  The default kind is
    not a stable sort, so nothing is promised about the order of rows with
    equal keys. *)
Record sort_values_spec (sort_values : list Ranked -> list Ranked) : Prop := {
  sort_values_perm : forall df, Permutation df (sort_values df);
  sort_values_sorted : forall df, Sorted by_geo_dist (sort_values df)
}.

(** [DataFrame.head(n)] for a count [n] that is not negative. *)
Definition head (A : Type) (n : nat) (df : list A) : list A := firstn n df.

(** Two sorts that fit [sort_values_spec]: insertion from the right, which
    keeps rows with equal keys in their order, and the same sort on the
    reversed frame, which reverses them.  They are instances of what
    [sort_values] promises, used to run the definitions; neither is the
    sort pandas runs. *)
Fixpoint insert (x : Ranked) (l : list Ranked) : list Ranked :=
  match l with
  | [] => [x]
  | y :: l' =>
      if ascending (geo_dist x) (geo_dist y) then x :: l else y :: insert x l'
  end.

Definition stable_sort (df : list Ranked) : list Ranked :=
  fold_right insert [] df.

Definition reversing_sort (df : list Ranked) : list Ranked :=
  stable_sort (rev df).

(** The rows of a frame whose key is tied with [d], in frame order. *)
Definition at_distance (d : float) (df : list Ranked) : list Ranked :=
  filter (fun r => tied (geo_dist r) d) df.

(** Two rows with tied keys. *)
Definition same_distance (a b : Ranked) : Prop :=
  tied (geo_dist a) (geo_dist b) = true.

(** No two rows of the frame have tied keys. *)
Definition no_ties (df : list Ranked) : Prop :=
  ForallOrdPairs (fun a b => tied (geo_dist a) (geo_dist b) = false) df.

(** The text of the ValueError pandas raises when a frame with several
    columns is assigned to one column. *)
Definition empty_frame_error : string :=
  "Cannot set a DataFrame with multiple columns to the single column geo_dist".

(** ** The emergency finder *)

Section Engine.

(** [Nominatim(...).geocode(query)]: a location (latitude, longitude),
    [None] when nothing matches, or an exception. *)
Variable geocode : string -> result (option coords).

(** [openrouteservice.Client(key=api_key).directions(coordinates=[start,
    end], profile='driving-car', format='geojson')]: the decoded
    response, or an exception. *)
Variable directions : string -> coords -> coords -> result value.

(** [geodesic(p, q).km] of geopy: the distance in kilometres, or the
    exception geopy raises for a point it rejects (a latitude outside
    [-90, 90], a coordinate that is not finite). *)
Variable geodesic_km : coords -> coords -> result float.

(** [DataFrame.sort_values('geo_dist')] *)
Variable sort_values : list Ranked -> list Ranked.

(** The module-level frame [data]. *)
Variable data : DataFrame.

Definition get_coordinates (address : string) : option coords :=
  match geocode (address ++ ", Nigeria")%string with
  | Return (Some location) => Some location
  | Return None => None
  | Raise _ => None
  end.

(** [routes['features'][0]['properties']['summary']] *)
Definition route_summary (routes : value) : option value :=
  match getitem routes "features" with
  | Some features =>
      match first features with
      | Some feature =>
          match getitem feature "properties" with
          | Some properties => getitem properties "summary"
          | None => None
          end
      | None => None
      end
  | None => None
  end.

(** The body of the [try] of [get_drive_time] once the response is in:
    [None] when a subscript or a division raises. *)
Definition read_summary (routes : value) : option (float * float) :=
  match route_summary routes with
  | Some summary =>
      match getitem summary "duration" with
      | Some duration =>
          match truediv duration 60 with
          | Some duration_mins =>
              match getitem summary "distance" with
              | Some distance =>
                  match truediv distance 1000 with
                  | Some distance_km => Some (duration_mins, distance_km)
                  | None => None
                  end
              | None => None
              end
          | None => None
          end
      | None => None
      end
  | None => None
  end.

(** [get_drive_time]: [Some (duration_mins, distance_km)], or [None] for
    the pair [(None, None)]. *)
Definition get_drive_time (start_coords end_coords : coords)
    (api_key : string) : option (float * float) :=
  match directions api_key start_coords end_coords with
  | Return routes => read_summary routes
  | Raise _ => None
  end.

(** [data['state'] == confirm_state], row by row: a missing cell equals
    no string. *)
Definition state_is (confirm_state : string) (r : Facility) : bool :=
  match state r with
  | Some s => String.eqb s confirm_state
  | None => false
  end.

(** [candidates = data[data['state'] == confirm_state].copy()] *)
Definition candidates (confirm_state : string) : DataFrame :=
  filter (state_is confirm_state) data.

(** [candidates.apply(lambda row: geodesic((u_lat, u_lon),
    (row['latitude'], row['longitude'])).km, axis=1)] on a frame that has
    rows: the distance of each row, row after row; an exception of the
    lambda ends the call and goes on to the caller. *)
Fixpoint apply_geodesic (origin : coords) (df : DataFrame)
    : result (list Ranked) :=
  match df with
  | [] => Return []
  | r :: rest =>
      match geodesic_km origin (latitude r, longitude r) with
      | Return km =>
          match apply_geodesic origin rest with
          | Return column => Return ({| row := r; geo_dist := km |} :: column)
          | Raise e => Raise e
          end
      | Raise e => Raise e
      end
  end.

(** [candidates['geo_dist'] = candidates.apply(..., axis=1)].  On a frame
    without rows [apply] has no row to call the lambda on (it tries the
    lambda on a row of missing values, which geopy rejects, and drops the
    exception) and returns a copy of the frame, with its eight columns, in
    place of a column of distances; the assignment to the one column
    [geo_dist] then raises. *)
Definition with_geo_dist (origin : coords) (df : DataFrame)
    : result (list Ranked) :=
  match df with
  | [] => Raise empty_frame_error
  | _ :: _ => apply_geodesic origin df
  end.

(** [top_5 = candidates.sort_values('geo_dist').head(5)], after the
    assignment of the column. *)
Definition top_5 (origin : coords) (df : DataFrame) : result (list Ranked) :=
  match with_geo_dist origin df with
  | Return frame => Return (head 5 (sort_values frame))
  | Raise e => Raise e
  end.

(** The first lines of the loop body: [drive_mins, drive_km = None, None],
    replaced by the drive time when a key was typed. *)
Definition drive_time (user_api_key : string) (u_lat u_lon : float)
    (r : Ranked) : option (float * float) :=
  if truthy_str user_api_key then
    get_drive_time (u_lon, u_lat)
                   (longitude (row r), latitude (row r)) user_api_key
  else None.

(** [if drive_mins: ... else: ...] *)
Definition shown_metrics (drive : option (float * float)) (r : Ranked)
    : metrics :=
  match drive with
  | Some (drive_mins, drive_km) =>
      if truthy drive_mins then Drive drive_mins drive_km
      else StraightLine (geo_dist r)
  | None => StraightLine (geo_dist r)
  end.

(** One turn of the loop over [top_5.iterrows()]. *)
Definition show (user_api_key : string) (u_lat u_lon : float) (r : Ranked)
    : ui :=
  Expander {| exp_name := facility_name (row r);
              exp_level := facility_level (row r);
              exp_metrics :=
                shown_metrics (drive_time user_api_key u_lat u_lon r) r;
              exp_destination := (latitude (row r), longitude (row r)) |}.

Definition address_not_found : string :=
  "Address not found. Try adding a landmark.".

Definition no_facilities : string := "No facilities found in this state.".

(** The block under [if find_btn and user_loc:] of the third tab, as the
    list of what it puts on the page.  (The script shows its tabs only
    when [data] is not empty.) *)
Definition find_closest_help (find_btn : bool)
    (user_loc confirm_state user_api_key : string) : list ui :=
  if find_btn && truthy_str user_loc then
    match get_coordinates (user_loc ++ ", " ++ confirm_state)%string with
    | Some (u_lat, u_lon) =>
        if truthy u_lat then
          Success u_lat u_lon ::
          match candidates confirm_state with
          | [] => [Error no_facilities]
          | _ :: _ =>
              match top_5 (u_lat, u_lon) (candidates confirm_state) with
              | Return ranked =>
                  Subheader "Top 5 Nearest Facilities" ::
                  map (show user_api_key u_lat u_lon) ranked
              | Raise e => [Uncaught e]
              end
          end
        else [Error address_not_found]
    | None => [Error address_not_found]
    end
  else [].

End Engine.

(** [l1] is [l2] with some elements left out, the others in their order. *)
Inductive subsequence (A : Type) : list A -> list A -> Prop :=
| subsequence_nil : forall l, subsequence [] l
| subsequence_skip : forall x l1 l2,
    subsequence l1 l2 -> subsequence l1 (x :: l2)
| subsequence_keep : forall x l1 l2,
    subsequence l1 l2 -> subsequence (x :: l1) (x :: l2).

(** A ranking keeps rows at equal distance in the order of the input: at
    every distance, the ranked rows at that distance follow one another
    as they do among the candidates. *)
Definition keeps_equal_distances_in_order
    (sort_values : list Ranked -> list Ranked) : Prop :=
  forall (geodesic_km : coords -> coords -> result float) (origin : coords)
         (df : DataFrame) (frame ranked : list Ranked) (d : float),
    with_geo_dist geodesic_km origin df = Return frame ->
    top_5 geodesic_km sort_values origin df = Return ranked ->
    subsequence (at_distance d ranked) (at_distance d frame).

(** A row of the frame with the distance geopy gave for it. *)
Definition has_geo_dist (geodesic_km : coords -> coords -> result float)
    (origin : coords) (r : Facility) (x : Ranked) : Prop :=
  row x = r /\
  geodesic_km origin (latitude r, longitude r) = Return (geo_dist x).

(** ** Sample inputs

    A small table and stand-ins for the services, used to run the
    definitions.  The three facilities of Oyo and the origin are those of
    the specification's ranking scenario. *)

Module Sample.

(** The float of a decimal literal with [k] digits after the point. *)
Definition dec (n : Z) (k : nat) : float :=
  PyFloat.div (of_Z n) (of_Z (10 ^ Z.of_nat k)).

Definition facility (name region : string) (lat lon : float) : Facility :=
  {| facility_name := Some name;
     facility_level := Some "Primary"%string;
     ownership := Some "Public"%string;
     ward := None;
     lga := None;
     state := Some region;
     latitude := lat;
     longitude := lon |}.

Definition A : Facility := facility "A" "Oyo" (dec 740 2) (dec 390 2).
Definition B : Facility := facility "B" "Oyo" (dec 738 2) (dec 385 2).
Definition C : Facility := facility "C" "Oyo" (dec 750 2) (dec 400 2).

(** Two facilities that share a building. *)
Definition Clinic : Facility := facility "Clinic" "Oyo" (dec 741 2) (dec 391 2).
Definition Lab : Facility := facility "Lab" "Oyo" (dec 741 2) (dec 391 2).

(** A row whose latitude is no latitude, one without longitude, and one
    of another state. *)
Definition Stray : Facility := facility "Stray" "Oyo" (of_Z 200) (dec 390 2).
Definition Unplaced : Facility := facility "Unplaced" "Oyo" (dec 740 2) S754_nan.
Definition Ikeja : Facility := facility "Ikeja" "Lagos" (dec 660 2) (dec 335 2).

Definition table : DataFrame := [A; B; C; Ikeja].

Definition origin : coords := (dec 739 2, dec 389 2).

Definition bodija : string := "Bodija Market, Ibadan".

(** A geocoder that knows one address, places another on the equator and
    is down for a third. *)
Definition geocode (query : string) : result (option coords) :=
  if String.eqb query "Bodija Market, Ibadan, Oyo, Nigeria" then
    Return (Some origin)
  else if String.eqb query "Bodija Market, Ibadan, Kebbi, Nigeria" then
    Return (Some origin)
  else if String.eqb query "Equator, Oyo, Nigeria" then
    Return (Some (PyFloat.zero, dec 389 2))
  else if String.eqb query "Timeout, Oyo, Nigeria" then
    Raise "Service timed out"
  else Return None.

Definition geojson (summary : list (string * value)) : value :=
  PDict [("type", PStr "FeatureCollection");
         ("features",
          PList [PDict [("type", PStr "Feature");
                        ("properties", PDict [("summary", PDict summary)])]])
        ]%string.

(** A routing service that rejects the key "expired", answers the key
    "still" with a route of no duration, the key "empty" with a summary
    without fields, and every other key with a twenty-minute route. *)
Definition directions (api_key : string) (start_coords end_coords : coords)
    : result value :=
  if String.eqb api_key "expired" then Raise "403 Forbidden"
  else if String.eqb api_key "still" then
    Return (geojson [("distance", PFloat (dec 12 1));
                     ("duration", PFloat PyFloat.zero)]%string)
  else if String.eqb api_key "empty" then Return (geojson [])
  else
    Return (geojson [("distance", PFloat (dec 85005 1));
                     ("duration", PInt 1200)]%string).

(** A stand-in for the geodesic distance: the sum of the differences in
    latitude and in longitude. *)
Definition km (p q : coords) : float :=
  SFadd prec emax
    (SFabs (SFsub prec emax (fst p) (fst q)))
    (SFabs (SFsub prec emax (snd p) (snd q))).

(** A stand-in for geopy's [Point]: like geopy it raises for coordinates
    that are not finite and for a latitude outside [-90, 90].  (geopy's
    text for the first goes on with the coordinates.) *)
Definition point (p : coords) : result coords :=
  if isnan (fst p) || isinf (fst p) || isnan (snd p) || isinf (snd p) then
    Raise "Point coordinates must be finite."
  else if in_range (of_Z (-90)) (of_Z 90) (fst p) then Return p
  else Raise "Latitude must be in the [-90; 90] range.".

(** A stand-in for [geodesic(p, q).km]: the two points are built, the
    first one first, and measured with [km]. *)
Definition geodesic (p q : coords) : result float :=
  match point p with
  | Return _ =>
      match point q with
      | Return _ => Return (km p q)
      | Raise e => Raise e
      end
  | Raise e => Raise e
  end.

End Sample.

(** ** What the page shows, event by event *)

Definition is_expander (shown : ui) : bool :=
  match shown with Expander _ => true | _ => false end.

(** The facility of an expander: name, level and the destination of its
    link. *)
Definition facility_shown (shown : ui) : option (cell * cell * coords) :=
  match shown with
  | Expander e => Some (exp_name e, exp_level e, exp_destination e)
  | _ => None
  end.

(** The messages of the page, an expander counting as no message. *)
Definition message_shown (shown : ui) : option ui :=
  match shown with
  | Expander _ => None
  | message => Some message
  end.

(** The expander of a ranked row, showing the given metrics. *)
Definition expander_of (r : Ranked) (shown : metrics) : ui :=
  Expander {| exp_name := facility_name (row r);
              exp_level := facility_level (row r);
              exp_metrics := shown;
              exp_destination := (latitude (row r), longitude (row r)) |}.

(** The query the geocoder receives for a location typed by the user and
    a confirmed state. *)
Definition geocoder_query (user_loc confirm_state : string) : string :=
  ((user_loc ++ ", " ++ confirm_state) ++ ", Nigeria")%string.

(** ** The filters of the map explorer *)

(** [str(x)] of a text cell, as [astype(str)] applies it: a missing cell
    is the float NaN and prints as "nan". *)
Definition astype_str (c : cell) : string :=
  match c with
  | Some s => s
  | None => "nan"
  end.

(** Equality of the values of a column of text: strings by their
    characters, missing equal to missing (as [unique] and [isin] take
    it). *)
Definition cell_eqb (c1 c2 : cell) : bool :=
  match c1, c2 with
  | Some s1, Some s2 => String.eqb s1 s2
  | None, None => true
  | _, _ => false
  end.

(** [Series.unique()]: the values in order of first appearance.  [seen]
    holds the values met so far. *)
Fixpoint unique_from (A : Type) (eqb : A -> A -> bool) (seen l : list A)
    : list A :=
  match l with
  | [] => []
  | x :: rest =>
      if existsb (eqb x) seen then unique_from eqb seen rest
      else x :: unique_from eqb (x :: seen) rest
  end.

Definition unique (A : Type) (eqb : A -> A -> bool) (l : list A) : list A :=
  unique_from eqb [] l.

(** [sorted(...)] on strings: ascending by code points, which is the
    order of the bytes of their UTF-8 encoding.  The order is total and
    antisymmetric, so the result does not depend on how the sort
    proceeds. *)
Fixpoint insert_str (x : string) (l : list string) : list string :=
  match l with
  | [] => [x]
  | y :: l' => if String.leb x y then x :: l else y :: insert_str x l'
  end.

Definition sorted (l : list string) : list string :=
  fold_right insert_str [] l.

(** [s.isin(values)] for one cell, against a list of strings and against
    a list of cells. *)
Definition isin_str (values : list string) (c : cell) : bool :=
  match c with
  | Some s => existsb (String.eqb s) values
  | None => false
  end.

Definition isin (values : list cell) (c : cell) : bool :=
  existsb (cell_eqb c) values.

Section MapExplorer.

Variable data : DataFrame.

(** [states = sorted(data['state'].astype(str).unique())], the options
    of both state select boxes. *)
Definition states : list string :=
  sorted (unique String.eqb (map (fun r => astype_str (state r)) data)).

(** [state_data = data[data['state'] == selected_state]] *)
Definition state_data (selected_state : string) : DataFrame :=
  filter (state_is selected_state) data.

(** [lgas = sorted(state_data['lga'].astype(str).unique())] *)
Definition lgas (selected_state : string) : list string :=
  sorted (unique String.eqb
            (map (fun r => astype_str (lga r)) (state_data selected_state))).

(** [levels = state_data['facility_level'].unique()] *)
Definition levels (selected_state : string) : list cell :=
  unique cell_eqb (map facility_level (state_data selected_state)).

(** [map_df]: the rows of the state, narrowed by each multiselect that
    has a selection. *)
Definition map_df (selected_state : string) (selected_lga : list string)
    (selected_level : list cell) : DataFrame :=
  let map_df := state_data selected_state in
  let map_df :=
    match selected_lga with
    | [] => map_df
    | _ :: _ => filter (fun r => isin_str selected_lga (lga r)) map_df
    end in
  match selected_level with
  | [] => map_df
  | _ :: _ => filter (fun r => isin selected_level (facility_level r)) map_df
  end.

End MapExplorer.




(** More sample rows: facilities of Oyo with their local government
    areas, and one whose state is missing. *)
Module Gazetteer.

Definition facility (name level region area : cell) : Facility :=
  {| facility_name := name;
     facility_level := level;
     ownership := Some "Public"%string;
     ward := None;
     lga := area;
     state := region;
     latitude := Sample.dec 740 2;
     longitude := Sample.dec 390 2 |}.

Definition table : DataFrame :=
  [ facility (Some "Adeoyo") (Some "Secondary") (Some "Oyo") (Some "Ibadan North");
    facility (Some "Agbowo") (Some "Primary") (Some "Oyo") (Some "Ibadan North");
    facility (Some "Iseyin") (Some "Primary") (Some "Oyo") (Some "Iseyin");
    facility (Some "Ikeja") None (Some "Lagos") (Some "Ikeja");
    facility (Some "Nameless") (Some "Primary") None None ]%string.

(** A geocoder that answers the one query for Bodija Market in Oyo and
    is unreachable for every other, and a routing service that knows the
    one key "k". *)
Definition geocode (query : string) : result (option coords) :=
  if String.eqb query "Bodija Market, Ibadan, Oyo, Nigeria" then
    Return (Some Sample.origin)
  else Raise "unreachable".

Definition directions (api_key : string) (start_coords end_coords : coords)
    : result value :=
  if String.eqb api_key "k" then
    Sample.directions api_key start_coords end_coords
  else Raise "unknown key".

(** Six candidates, the sixth far from the origin of the samples. *)
Definition six : DataFrame :=
  [Sample.Ikeja; Sample.C; Sample.Lab; Sample.B; Sample.A; Sample.Clinic].

End Gazetteer.

(** ** The order of the sort keys *)

Section FloatOrder.

Lemma compare_cont_Eq (m n : positive) :
  Pos.compare_cont Eq m n = Pos.compare m n.
Proof. reflexivity. Qed.

Lemma ascending_code (x y : float) :
  ascending x y = true <-> lex_le (code x) (code y).
Proof.
  unfold ascending, leb, SFleb.
  destruct x as [sx | sx | | sx mx ex]; destruct y as [sy | sy | | sy my ey];
    try destruct sx; try destruct sy; cbn;
    try (split; [ intros _; lia | reflexivity ]);
    try (split; [ discriminate | lia ]).
  - rewrite compare_cont_Eq.
    destruct (Z.compare_spec ex ey); cbn;
      try destruct (Pos.compare_spec mx my); cbn;
      split; try discriminate; try reflexivity; try lia.
  - rewrite compare_cont_Eq.
    destruct (Z.compare_spec ex ey); cbn;
      try destruct (Pos.compare_spec mx my); cbn;
      split; try discriminate; try reflexivity; try lia.
Qed.

Lemma ascending_total (x y : float) :
  ascending x y = true \/ ascending y x = true.
Proof.
  rewrite !ascending_code.
  destruct (code x) as [[a b] c], (code y) as [[a' b'] c']; cbn; lia.
Qed.

Lemma ascending_refl (x : float) : ascending x x = true.
Proof. destruct (ascending_total x x); assumption. Qed.

Lemma ascending_trans (x y z : float) :
  ascending x y = true -> ascending y z = true -> ascending x z = true.
Proof.
  rewrite !ascending_code.
  destruct (code x) as [[a b] c], (code y) as [[a' b'] c'],
           (code z) as [[a'' b''] c'']; cbn; lia.
Qed.

Lemma tied_sym (x y : float) : tied x y = tied y x.
Proof. unfold tied. apply andb_comm. Qed.

(** Python's truth values of floats, and two of its divisions. *)
Example truthy_floats :
  truthy (S754_zero false) = false /\ truthy (S754_zero true) = false /\
  truthy S754_nan = true /\ truthy (of_Z 7) = true.
Proof. repeat split. Qed.

Example truediv_samples :
  truediv (PInt 1200) 60 = Some (of_Z 20) /\
  truediv (PFloat (of_Z 8500)) 1000 = Some (Sample.dec 85 1) /\
  truediv (PStr "1200") 60 = None /\
  truediv (PInt (10 ^ 400)) 60 = None.
Proof. repeat split; vm_compute; reflexivity. Qed.

(** NaN sorts after every number, and the two zeros are tied. *)
Example ascending_samples :
  ascending (of_Z 3) S754_nan = true /\
  ascending S754_nan (of_Z 3) = false /\
  ascending (of_Z (-1)) (of_Z 3) = true /\
  tied (S754_zero true) (S754_zero false) = true.
Proof. repeat split. Qed.

End FloatOrder.

(** ** Sorted frames *)

Section Sorting.

Lemma by_geo_dist_trans (a b c : Ranked) :
  by_geo_dist a b -> by_geo_dist b c -> by_geo_dist a c.
Proof. unfold by_geo_dist. apply ascending_trans. Qed.

Lemma Sorted_strongly (l : list Ranked) :
  Sorted by_geo_dist l -> StronglySorted by_geo_dist l.
Proof.
  apply Sorted_StronglySorted. intros a b c. apply by_geo_dist_trans.
Qed.

Lemma In_head (A : Type) (n : nat) (x : A) (l : list A) :
  In x (head n l) -> In x l.
Proof.
  unfold head. intros H.
  rewrite <- (firstn_skipn n l). apply in_or_app. left. exact H.
Qed.


(** Insertion sort fits the contract of [sort_values]. *)

Lemma insert_perm (x : Ranked) (l : list Ranked) :
  Permutation (x :: l) (insert x l).
Proof.
  induction l as [ | y l IH ]; cbn.
  - reflexivity.
  - destruct (ascending (geo_dist x) (geo_dist y)).
    + reflexivity.
    + rewrite perm_swap. apply perm_skip. exact IH.
Qed.

Lemma insert_HdRel (a x : Ranked) (l : list Ranked) :
  by_geo_dist a x -> HdRel by_geo_dist a l ->
  HdRel by_geo_dist a (insert x l).
Proof.
  intros Hax Hal. destruct l as [ | y l ]; cbn.
  - constructor. exact Hax.
  - destruct (ascending (geo_dist x) (geo_dist y)); constructor.
    + exact Hax.
    + inversion Hal. assumption.
Qed.

Lemma insert_sorted (x : Ranked) (l : list Ranked) :
  Sorted by_geo_dist l -> Sorted by_geo_dist (insert x l).
Proof.
  induction 1 as [ | y l Hl IH Hy ]; cbn.
  - repeat constructor.
  - destruct (ascending (geo_dist x) (geo_dist y)) eqn:Hxy.
    + constructor; [ constructor; assumption | constructor; exact Hxy ].
    + constructor; [ exact IH | ].
      apply insert_HdRel; [ | exact Hy ].
      destruct (ascending_total (geo_dist x) (geo_dist y)) as [H | H].
      * congruence.
      * exact H.
Qed.

Lemma stable_sort_spec : sort_values_spec stable_sort.
Proof.
  split; intros df; induction df as [ | x df IH ]; cbn.
  - constructor.
  - rewrite <- insert_perm. apply perm_skip. exact IH.
  - constructor.
  - apply insert_sorted. exact IH.
Qed.

Lemma reversing_sort_spec : sort_values_spec reversing_sort.
Proof.
  split; intros df; unfold reversing_sort.
  - rewrite (Permutation_rev df) at 1.
    apply (sort_values_perm stable_sort_spec).
  - apply (sort_values_sorted stable_sort_spec).
Qed.

(** Frames without ties have one sorted arrangement. *)

Lemma no_ties_perm (l l' : list Ranked) :
  Permutation l l' -> no_ties l -> no_ties l'.
Proof.
  unfold no_ties.
  induction 1 as [ | x l l' Hp IH | x y l | l l' l'' _ IH1 _ IH2 ]; intros H.
  - exact H.
  - inversion H as [ | ? ? Hx Hl ]; subst. constructor.
    + eapply Permutation_Forall; eassumption.
    + apply IH. exact Hl.
  - inversion H as [ | ? ? Hy Hxl ]; subst.
    inversion Hxl as [ | ? ? Hx Hl ]; subst.
    inversion Hy as [ | ? ? Hyx Hyl ]; subst.
    constructor; [ constructor | constructor ]; try assumption.
    rewrite tied_sym. exact Hyx.
  - apply IH2, IH1, H.
Qed.

Lemma tied_refl (r : Ranked) : tied (geo_dist r) (geo_dist r) = true.
Proof. unfold tied. rewrite ascending_refl. reflexivity. Qed.

Lemma sorted_unique (l1 l2 : list Ranked) :
  Permutation l1 l2 -> no_ties l1 ->
  StronglySorted by_geo_dist l1 -> StronglySorted by_geo_dist l2 ->
  l1 = l2.
Proof.
  revert l2. induction l1 as [ | a l1 IH ]; intros l2 Hp Hn H1 H2.
  - apply Permutation_nil in Hp. congruence.
  - destruct l2 as [ | b l2 ].
    + apply Permutation_sym, Permutation_nil in Hp. discriminate.
    + inversion Hn as [ | ? ? Ha Hn' ]; subst.
      inversion H1 as [ | ? ? H1' Ha1 ]; subst.
      inversion H2 as [ | ? ? H2' Hb2 ]; subst.
      assert (Hb : In b (a :: l1)).
      { eapply Permutation_in;
          [ apply Permutation_sym; exact Hp | left; reflexivity ]. }
      assert (Hab : a = b).
      { destruct Hb as [Hb | Hb]; [ exact Hb | exfalso ].
        rewrite Forall_forall in Ha, Ha1, Hb2.
        pose proof (Ha _ Hb) as Htie. pose proof (Ha1 _ Hb) as Hle.
        assert (Ha' : In a (b :: l2)).
        { eapply Permutation_in; [ exact Hp | left; reflexivity ]. }
        destruct Ha' as [Ha' | Ha'].
        - subst. rewrite tied_refl in Htie. discriminate.
        - pose proof (Hb2 _ Ha') as Hge.
          unfold tied, by_geo_dist in *. rewrite Hle, Hge in Htie.
          discriminate. }
      subst b. f_equal. apply IH; try assumption.
      eapply Permutation_cons_inv. exact Hp.
Qed.

End Sorting.

(** ** Ranking: [top_5] *)

Section Ranking.

Variable geodesic_km : coords -> coords -> result float.
Variable sort_values : list Ranked -> list Ranked.
Hypothesis sort_values_ok : sort_values_spec sort_values.

Lemma sort_values_strongly (l : list Ranked) :
  StronglySorted by_geo_dist (sort_values l).
Proof. apply Sorted_strongly, (sort_values_sorted sort_values_ok). Qed.

(** [apply] returns a column exactly when geopy gives a distance for
    every row, and the column holds those distances, row by row. *)
Lemma apply_geodesic_Return (origin : coords) (df : DataFrame)
    (frame : list Ranked) :
  apply_geodesic geodesic_km origin df = Return frame <->
  Forall2 (has_geo_dist geodesic_km origin) df frame.
Proof.
  revert frame.
  induction df as [ | r df IH ]; intros frame; cbn [apply_geodesic].
  - split.
    + intros [= <-]. constructor.
    + intros H. inversion H. reflexivity.
  - destruct (geodesic_km origin (latitude r, longitude r))
      as [km | e] eqn:Hkm.
    + destruct (apply_geodesic geodesic_km origin df)
        as [column | e] eqn:Hcol.
      * split.
        -- intros [= <-]. constructor.
           ++ split; [ reflexivity | exact Hkm ].
           ++ apply IH. reflexivity.
        -- intros H. inversion H as [ | ? x ? column' [Hrow Hd] Hrest ]; subst.
           apply IH in Hrest. injection Hrest as ->.
           rewrite Hkm in Hd. injection Hd as ->.
           destruct x. reflexivity.
      * split; [ discriminate | ].
        intros H. inversion H as [ | ? x ? column' _ Hrest ]; subst.
        apply IH in Hrest. discriminate.
    + split; [ discriminate | ].
      intros H. inversion H as [ | ? x ? column' [Hrow Hd] _ ]; subst.
      rewrite Hkm in Hd. discriminate.
Qed.


Lemma has_geo_dist_In (origin : coords) (df : DataFrame)
    (frame : list Ranked) (x : Ranked) :
  Forall2 (has_geo_dist geodesic_km origin) df frame -> In x frame ->
  In (row x) df /\
  geodesic_km origin (latitude (row x), longitude (row x))
  = Return (geo_dist x).
Proof.
  induction 1 as [ | r y df frame [Hrow Hd] _ IH ]; intros Hin;
    [ destruct Hin | ].
  destruct Hin as [-> | Hin].
  - subst r. split; [ left; reflexivity | exact Hd ].
  - destruct (IH Hin) as [Hdf Hx]. split; [ right; exact Hdf | exact Hx ].
Qed.

Lemma has_geo_dist_all (origin : coords) (df : DataFrame)
    (frame : list Ranked) (r : Facility) :
  Forall2 (has_geo_dist geodesic_km origin) df frame -> In r df ->
  exists km, geodesic_km origin (latitude r, longitude r) = Return km.
Proof.
  induction 1 as [ | r' y df frame [Hrow Hd] _ IH ]; intros Hin;
    [ destruct Hin | ].
  destruct Hin as [-> | Hin]; [ exists (geo_dist y); exact Hd | exact (IH Hin) ].
Qed.

Lemma apply_geodesic_total (origin : coords) (df : DataFrame) :
  (forall r, In r df ->
     exists km, geodesic_km origin (latitude r, longitude r) = Return km) ->
  exists frame, apply_geodesic geodesic_km origin df = Return frame.
Proof.
  induction df as [ | r df IH ]; intros Hall; cbn [apply_geodesic].
  - exists []. reflexivity.
  - destruct (Hall r (or_introl eq_refl)) as [km ->].
    destruct IH as [column ->].
    + intros r' Hr'. apply Hall. right. exact Hr'.
    + eexists. reflexivity.
Qed.

(** The assignment of the column goes through exactly when the frame has
    rows and geopy gives a distance for each. *)
Lemma with_geo_dist_Return (origin : coords) (df : DataFrame)
    (frame : list Ranked) :
  with_geo_dist geodesic_km origin df = Return frame <->
  df <> [] /\ Forall2 (has_geo_dist geodesic_km origin) df frame.
Proof.
  unfold with_geo_dist. destruct df as [ | r df ].
  - split; [ discriminate | intros [H _]; congruence ].
  - rewrite apply_geodesic_Return. split.
    + intros H. split; [ discriminate | exact H ].
    + intros [_ H]. exact H.
Qed.


Lemma with_geo_dist_total (origin : coords) (df : DataFrame) :
  df <> [] ->
  (forall r, In r df ->
     exists km, geodesic_km origin (latitude r, longitude r) = Return km) ->
  exists frame, with_geo_dist geodesic_km origin df = Return frame.
Proof.
  intros Hrows Hall. unfold with_geo_dist.
  destruct df as [ | r df ]; [ congruence | ].
  apply apply_geodesic_total. exact Hall.
Qed.

Lemma with_geo_dist_length (origin : coords) (df : DataFrame)
    (frame : list Ranked) :
  with_geo_dist geodesic_km origin df = Return frame ->
  length frame = length df.
Proof.
  intros H. apply with_geo_dist_Return in H. destruct H as [_ H].
  symmetry. exact (Forall2_length H).
Qed.

Lemma top_5_Return (origin : coords) (df : DataFrame) (ranked : list Ranked) :
  top_5 geodesic_km sort_values origin df = Return ranked <->
  exists frame,
    with_geo_dist geodesic_km origin df = Return frame /\
    ranked = head 5 (sort_values frame).
Proof.
  unfold top_5.
  destruct (with_geo_dist geodesic_km origin df) as [frame | e]; split.
  - intros [= <-]. exists frame. split; reflexivity.
  - intros [frame' [[= <-] ->]]. reflexivity.
  - discriminate.
  - intros [frame' [H _]]. discriminate.
Qed.


Lemma top_5_length (origin : coords) (df : DataFrame) (ranked : list Ranked) :
  top_5 geodesic_km sort_values origin df = Return ranked ->
  length ranked = Nat.min 5 (length df).
Proof.
  intros H. apply top_5_Return in H. destruct H as [frame [Hframe ->]].
  unfold head. rewrite length_firstn.
  rewrite <- (Permutation_length (sort_values_perm sort_values_ok _)).
  rewrite (with_geo_dist_length _ _ Hframe). reflexivity.
Qed.

Lemma top_5_rows (origin : coords) (df : DataFrame) (ranked : list Ranked)
    (r : Ranked) :
  top_5 geodesic_km sort_values origin df = Return ranked ->
  In r ranked ->
  In (row r) df /\
  geodesic_km origin (latitude (row r), longitude (row r))
  = Return (geo_dist r).
Proof.
  intros H Hr. apply top_5_Return in H. destruct H as [frame [Hframe ->]].
  apply In_head in Hr.
  apply (Permutation_in _
           (Permutation_sym (sort_values_perm sort_values_ok _))) in Hr.
  apply with_geo_dist_Return in Hframe. destruct Hframe as [_ Hframe].
  exact (has_geo_dist_In _ Hframe Hr).
Qed.

(** One rejected row is enough for no ranking to be returned. *)
Lemma top_5_rejected (origin : coords) (df : DataFrame) (r : Facility)
    (e : string) :
  In r df -> geodesic_km origin (latitude r, longitude r) = Raise e ->
  exists e', top_5 geodesic_km sort_values origin df = Raise e'.
Proof.
  intros Hin Hr.
  destruct (top_5 geodesic_km sort_values origin df) as [ranked | e']
    eqn:Htop; [ | exists e'; reflexivity ].
  apply top_5_Return in Htop. destruct Htop as [frame [Hframe _]].
  apply with_geo_dist_Return in Hframe. destruct Hframe as [_ Hframe].
  assert (Hkm : exists km,
             geodesic_km origin (latitude r, longitude r) = Return km)
    by (eapply has_geo_dist_all; eassumption).
  destruct Hkm as [km Hkm]. congruence.
Qed.

(** The rows left out are at least as far as every row kept. *)
Lemma head_5_nearest (frame : list Ranked) :
  exists rest,
    Permutation frame (head 5 (sort_values frame) ++ rest) /\
    Forall (fun far =>
              Forall (fun near => by_geo_dist near far)
                     (head 5 (sort_values frame))) rest.
Proof.
  unfold head.
  exists (skipn 5 (sort_values frame)). split.
  - rewrite firstn_skipn. apply (sort_values_perm sort_values_ok).
  - pose proof (sort_values_strongly frame) as Hs.
    rewrite <- (firstn_skipn 5 (sort_values frame)) in Hs.
    revert Hs. generalize (skipn 5 (sort_values frame)) as rest.
    generalize (firstn 5 (sort_values frame)) as kept.
    induction kept as [ | a kept IH ]; intros rest Hs.
    + apply Forall_forall. intros far _. constructor.
    + cbn in Hs. inversion Hs as [ | ? ? Hs' Ha ]; subst.
      specialize (IH _ Hs').
      rewrite Forall_forall in *. intros far Hfar. constructor.
      * apply Ha. apply in_or_app. right. exact Hfar.
      * apply IH. exact Hfar.
Qed.

End Ranking.




(** ** Rows at equal distance *)

Lemma tied_ascending (x y d : float) :
  tied x d = true -> tied y d = true -> ascending x y = true.
Proof.
  unfold tied. rewrite !andb_true_iff. intros [Hxd _] [_ Hdy].
  eapply ascending_trans; eassumption.
Qed.

Lemma insert_at_distance (d : float) (x : Ranked) (l : list Ranked) :
  at_distance d (insert x l) = at_distance d (x :: l).
Proof.
  induction l as [ | y l IH ]; [ reflexivity | ].
  cbn [insert]. destruct (ascending (geo_dist x) (geo_dist y)) eqn:Hxy.
  - reflexivity.
  - unfold at_distance in *. cbn [filter] in *. rewrite IH.
    destruct (tied (geo_dist x) d) eqn:Hx, (tied (geo_dist y) d) eqn:Hy;
      try reflexivity.
    rewrite (tied_ascending _ _ _ Hx Hy) in Hxy. discriminate.
Qed.

(** Insertion sort is stable: the rows at any one distance come out in
    the order they went in. *)
Lemma stable_sort_stable (d : float) (df : list Ranked) :
  at_distance d (stable_sort df) = at_distance d df.
Proof.
  induction df as [ | x df IH ]; [ reflexivity | ].
  cbn [stable_sort fold_right]. rewrite insert_at_distance.
  unfold at_distance in *. cbn [filter].
  fold (stable_sort df). rewrite IH. reflexivity.
Qed.

(** Two sorted arrangements of the same rows have the same distances
    position by position. *)

Lemma same_distance_refl (a : Ranked) : same_distance a a.
Proof. apply tied_refl. Qed.

Lemma same_distance_sym (a b : Ranked) : same_distance a b -> same_distance b a.
Proof. unfold same_distance. rewrite tied_sym. trivial. Qed.

Lemma same_distance_trans (a b c : Ranked) :
  same_distance a b -> same_distance b c -> same_distance a c.
Proof.
  unfold same_distance, tied. rewrite !andb_true_iff.
  intros [Hab Hba] [Hbc Hcb]. split; eapply ascending_trans; eassumption.
Qed.

Lemma same_distance_between (a b : Ranked) :
  by_geo_dist a b -> by_geo_dist b a -> same_distance a b.
Proof.
  unfold same_distance, tied, by_geo_dist. intros -> ->. reflexivity.
Qed.

Lemma Forall2_same_distance_refl (l : list Ranked) :
  Forall2 same_distance l l.
Proof.
  induction l; constructor; [ apply same_distance_refl | assumption ].
Qed.

Lemma Forall2_same_distance_trans (l1 l2 l3 : list Ranked) :
  Forall2 same_distance l1 l2 -> Forall2 same_distance l2 l3 ->
  Forall2 same_distance l1 l3.
Proof.
  intros H12. revert l3.
  induction H12 as [ | a b l1 l2 Hab _ IH ]; intros l3 H23;
    inversion H23; subst; constructor.
  - eapply same_distance_trans; eassumption.
  - apply IH. assumption.
Qed.

Lemma Forall2_head (n : nat) (l1 l2 : list Ranked) :
  Forall2 same_distance l1 l2 ->
  Forall2 same_distance (head n l1) (head n l2).
Proof.
  unfold head. intros H. revert n.
  induction H; intros [ | n ]; cbn; constructor; auto.
Qed.

(** Moving a row to the front of rows that all share its distance. *)
Lemma to_front_same_distance (p q : list Ranked) (b c : Ranked) :
  same_distance b c -> Forall (fun x => same_distance x c) p ->
  Forall2 same_distance (p ++ b :: q) (c :: p ++ q).
Proof.
  revert c. induction p as [ | x p IH ]; intros c Hbc Hp; cbn.
  - constructor; [ exact Hbc | apply Forall2_same_distance_refl ].
  - inversion Hp as [ | ? ? Hxc Hp' ]; subst. constructor; [ exact Hxc | ].
    apply IH.
    + eapply same_distance_trans; [ exact Hbc | ].
      apply same_distance_sym. exact Hxc.
    + rewrite Forall_forall in *. intros y Hy.
      eapply same_distance_trans; [ apply Hp'; exact Hy | ].
      apply same_distance_sym. exact Hxc.
Qed.

Lemma StronglySorted_remove (p q : list Ranked) (b : Ranked) :
  StronglySorted by_geo_dist (p ++ b :: q) ->
  StronglySorted by_geo_dist (p ++ q) /\
  Forall (fun x => by_geo_dist x b) p.
Proof.
  induction p as [ | x p IH ]; cbn; intros H.
  - inversion H; subst. split; [ assumption | constructor ].
  - inversion H as [ | ? ? Hs Hx ]; subst.
    destruct (IH Hs) as [Hs' Hp]. split.
    + constructor; [ exact Hs' | ].
      rewrite Forall_forall in *. intros y Hy. apply Hx.
      apply in_app_or in Hy. apply in_or_app.
      destruct Hy as [Hy | Hy]; [ left | right; right ]; exact Hy.
    + constructor; [ | exact Hp ].
      rewrite Forall_forall in Hx. apply Hx.
      apply in_or_app. right. left. reflexivity.
Qed.

Lemma sorted_same_distances (l2 l1 : list Ranked) :
  Permutation l1 l2 ->
  StronglySorted by_geo_dist l1 -> StronglySorted by_geo_dist l2 ->
  Forall2 same_distance l1 l2.
Proof.
  revert l1. induction l2 as [ | b l2 IH ]; intros l1 Hp H1 H2.
  - apply Permutation_sym, Permutation_nil in Hp. subst. constructor.
  - assert (Hb : In b l1).
    { eapply Permutation_in;
        [ apply Permutation_sym; exact Hp | left; reflexivity ]. }
    apply in_split in Hb. destruct Hb as [p [q ->]].
    destruct (StronglySorted_remove _ _ _ H1) as [H1' Hpb].
    inversion H2 as [ | ? ? H2' Hb2 ]; subst.
    assert (Hp' : Permutation (p ++ q) l2).
    { apply Permutation_sym. eapply Permutation_cons_app_inv.
      apply Permutation_sym. exact Hp. }
    apply Forall2_same_distance_trans with (l2 := b :: p ++ q).
    + apply to_front_same_distance; [ apply same_distance_refl | ].
      rewrite Forall_forall in *. intros x Hx.
      apply same_distance_between; [ apply Hpb; exact Hx | ].
      apply Hb2. eapply Permutation_in; [ exact Hp' | ].
      apply in_or_app. left. exact Hx.
    + constructor; [ apply same_distance_refl | ].
      apply IH; assumption.
Qed.

Lemma filter_firstn_subsequence (A : Type) (f : A -> bool) (n : nat)
    (l : list A) :
  subsequence (filter f (firstn n l)) (filter f l).
Proof.
  revert n. induction l as [ | x l IH ]; intros [ | n ]; cbn;
    try apply subsequence_nil.
  destruct (f x); [ apply subsequence_keep | ]; apply IH.
Qed.

(** The ranking by a stable sort keeps rows at equal distance in the order
    of the candidates. *)
Lemma stable_sort_keeps_order : keeps_equal_distances_in_order stable_sort.
Proof.
  intros geodesic_km origin df frame ranked d Hframe Hranked.
  unfold top_5 in Hranked. rewrite Hframe in Hranked.
  assert (Hr : ranked = head 5 (stable_sort frame)) by congruence.
  rewrite Hr. unfold head.
  rewrite <- (stable_sort_stable d frame).
  apply filter_firstn_subsequence.
Qed.

(** The clinic and the lab share their coordinates, so they are at equal
    distance from any origin, and the clinic comes first among the
    candidates.  The ranking by [reversing_sort] lists the lab first. *)
Lemma reversing_sort_swaps :
  let d := Sample.km Sample.origin (Sample.dec 741 2, Sample.dec 391 2) in
  with_geo_dist Sample.geodesic Sample.origin [Sample.Clinic; Sample.Lab]
  = Return [ {| row := Sample.Clinic; geo_dist := d |};
             {| row := Sample.Lab; geo_dist := d |} ] /\
  top_5 Sample.geodesic reversing_sort Sample.origin
    [Sample.Clinic; Sample.Lab]
  = Return [ {| row := Sample.Lab; geo_dist := d |};
             {| row := Sample.Clinic; geo_dist := d |} ].
Proof.
  intros d. split; vm_compute; reflexivity.
Qed.

(** What [sort_values] promises leaves the order of rows at equal
    distance open: of the two sorts above, both of which fit
    [sort_values_spec], one keeps that order and the other does not.
    Neither is the sort pandas runs; which of the two behaviours the
    script shows on a given frame is decided inside that sort. *)
Lemma sort_values_spec_leaves_ties_open :
  (sort_values_spec stable_sort /\
   keeps_equal_distances_in_order stable_sort) /\
  (sort_values_spec reversing_sort /\
   ~ keeps_equal_distances_in_order reversing_sort).
Proof.
  split; split.
  - exact stable_sort_spec.
  - exact stable_sort_keeps_order.
  - exact reversing_sort_spec.
  - intros Hkeeps. destruct reversing_sort_swaps as [Hframe Hranked].
    pose proof (Hkeeps _ _ _ _ _
                  (Sample.km Sample.origin
                     (Sample.dec 741 2, Sample.dec 391 2))
                  Hframe Hranked) as H.
    vm_compute in H.
    repeat match goal with
           | Hs : subsequence _ _ |- _ => inversion Hs; clear Hs; subst
           end.
Qed.

(** ** The page of the emergency finder *)

Section Page.

Variable geocode : string -> result (option coords).
Variable directions : string -> coords -> coords -> result value.
Variable geodesic_km : coords -> coords -> result float.
Variable sort_values : list Ranked -> list Ranked.
Variable data : DataFrame.

Let page := find_closest_help geocode directions geodesic_km sort_values data.

(** The page once the address is found. *)
Lemma page_found (user_loc confirm_state user_api_key : string)
    (u_lat u_lon : float) :
  truthy_str user_loc = true ->
  get_coordinates geocode (user_loc ++ ", " ++ confirm_state)%string
  = Some (u_lat, u_lon) ->
  truthy u_lat = true ->
  page true user_loc confirm_state user_api_key
  = Success u_lat u_lon ::
    match candidates data confirm_state with
    | [] => [Error no_facilities]
    | _ :: _ =>
        match top_5 geodesic_km sort_values (u_lat, u_lon)
                    (candidates data confirm_state) with
        | Return ranked =>
            Subheader "Top 5 Nearest Facilities" ::
            map (show directions user_api_key u_lat u_lon) ranked
        | Raise e => [Uncaught e]
        end
    end.
Proof.
  intros Hloc Hgeo Hlat. unfold page, find_closest_help.
  rewrite Hloc, Hgeo, Hlat. reflexivity.
Qed.

(** The page when the address is not found. *)
Lemma page_not_found (user_loc confirm_state user_api_key : string) :
  truthy_str user_loc = true ->
  get_coordinates geocode (user_loc ++ ", " ++ confirm_state)%string = None ->
  page true user_loc confirm_state user_api_key = [Error address_not_found].
Proof.
  intros Hloc Hgeo. unfold page, find_closest_help.
  rewrite Hloc, Hgeo. reflexivity.
Qed.

Lemma candidates_In (confirm_state : string) (r : Facility) :
  In r (candidates data confirm_state) <->
  In r data /\ state r = Some confirm_state.
Proof.
  unfold candidates, state_is. rewrite filter_In.
  destruct (state r) as [s | ].
  - rewrite String.eqb_eq. split; intros [H1 H2]; split; congruence.
  - split; intros [_ H]; discriminate.
Qed.

Lemma candidates_none (confirm_state : string) :
  (forall r, In r data -> state r <> Some confirm_state) ->
  candidates data confirm_state = [].
Proof.
  intros Hnone.
  destruct (candidates data confirm_state) as [ | r l ] eqn:Hc;
    [ reflexivity | exfalso ].
  assert (Hr : In r (candidates data confirm_state))
    by (rewrite Hc; left; reflexivity).
  apply candidates_In in Hr. destruct Hr as [Hin Hst].
  exact (Hnone r Hin Hst).
Qed.

End Page.




(** ** Loading the table *)

Lemma notna_true (r : Facility) :
  notna r = true <->
  isnan (latitude r) = false /\ isnan (longitude r) = false.
Proof.
  unfold notna. rewrite andb_true_iff, !negb_true_iff. reflexivity.
Qed.

(** C4, as amended.  The rows of the loaded table are exactly the rows
    read from the file whose latitude and longitude are both present;
    when the file cannot be read the table is empty.  So every facility
    of the table, and every candidate drawn from it, has both
    coordinates.  Nothing is said about their range: [load_data] does not
    look at it. *)
Theorem load_data_keeps_rows_with_coordinates
    (read_csv : result DataFrame) (r : Facility) :
  let data := snd (load_data read_csv) in
  (In r data <->
   (exists df, read_csv = Return df /\ In r df) /\
   isnan (latitude r) = false /\ isnan (longitude r) = false) /\
  (forall confirm_state,
     In r (candidates data confirm_state) ->
     isnan (latitude r) = false /\ isnan (longitude r) = false).
Proof.
  intros data.
  assert (Hdata : In r data <->
                  (exists df, read_csv = Return df /\ In r df) /\
                  isnan (latitude r) = false /\ isnan (longitude r) = false).
  { subst data. destruct read_csv as [df | e]; cbn [load_data snd].
    - unfold dropna. rewrite filter_In, notna_true. split.
      + intros [Hin Hna]. split; [ exists df; split | ]; auto.
      + intros [[df' [Heq Hin]] Hna]. injection Heq as <-. split; assumption.
    - split; [ intros [] | intros [[df [Heq _]] _]; discriminate ]. }
  split; [ exact Hdata | ].
  intros confirm_state Hc. apply candidates_In in Hc.
  destruct Hc as [Hin _]. apply Hdata in Hin. apply Hin.
Qed.

(** C4, witness: of a file with a row at latitude 200, a row without
    longitude and the facility A, the facility A is loaded with both its
    coordinates. *)
Lemma load_data_keeps_rows_with_coordinates_witness :
  let data :=
    snd (load_data (Return [Sample.Stray; Sample.Unplaced; Sample.A])) in
  In Sample.A data /\
  isnan (latitude Sample.A) = false /\ isnan (longitude Sample.A) = false.
Proof.
  intros data.
  destruct (load_data_keeps_rows_with_coordinates
              (Return [Sample.Stray; Sample.Unplaced; Sample.A]) Sample.A)
    as [Hdata Hcandidates].
  assert (HA : In Sample.A (candidates data "Oyo")).
  { right. left. reflexivity. }
  split.
  - apply Hdata. split.
    + exists [Sample.Stray; Sample.Unplaced; Sample.A]. split.
      * reflexivity.
      * right. right. left. reflexivity.
    + exact (Hcandidates "Oyo"%string HA).
  - exact (Hcandidates "Oyo"%string HA).
Defined.

(** C4, counterexample.  A file with a row at latitude 200, a row without
    longitude and the facility A loads as the first and the third row:
    the row at latitude 200 has both coordinates, lies outside the range
    of latitudes, and is a candidate for Oyo. *)
Lemma out_of_range_row_is_loaded :
  let data :=
    snd (load_data (Return [Sample.Stray; Sample.Unplaced; Sample.A])) in
  data = [Sample.Stray; Sample.A] /\
  In Sample.Stray (candidates data "Oyo") /\
  latitude Sample.Stray = of_Z 200 /\
  on_earth Sample.Stray = false.
Proof.
  split; [ | split; [ | split ] ].
  - vm_compute. reflexivity.
  - left. vm_compute. reflexivity.
  - reflexivity.
  - vm_compute. reflexivity.
Qed.

(** ** Geocoding *)

(** C5.  When the geocoder raises (a provider error or a timeout) or
    finds nothing, [get_coordinates] returns its "no coordinates" value
    instead of raising, and the page of the emergency finder is the one
    error "Address not found. Try adding a landmark.": no candidate is
    looked up, ranked or shown. *)
Theorem geocode_failure_is_address_not_found
    (geocode : string -> result (option coords))
    (directions : string -> coords -> coords -> result value)
    (geodesic_km : coords -> coords -> result float)
    (sort_values : list Ranked -> list Ranked)
    (data : DataFrame)
    (user_loc confirm_state user_api_key : string) :
  truthy_str user_loc = true ->
  (let query := ((user_loc ++ ", " ++ confirm_state) ++ ", Nigeria")%string in
   (exists e, geocode query = Raise e) \/ geocode query = Return None) ->
  get_coordinates geocode (user_loc ++ ", " ++ confirm_state)%string = None /\
  find_closest_help geocode directions geodesic_km sort_values data
    true user_loc confirm_state user_api_key
  = [Error "Address not found. Try adding a landmark."].
Proof.
  intros Hloc Hfail.
  assert (Hnone : get_coordinates geocode
                    (user_loc ++ ", " ++ confirm_state)%string = None).
  { unfold get_coordinates. destruct Hfail as [[e He] | Hn].
    - rewrite He. reflexivity.
    - rewrite Hn. reflexivity. }
  split; [ exact Hnone | ].
  apply page_not_found; assumption.
Qed.

(** C5, witness: the sample geocoder times out on the address "Timeout"
    in Oyo. *)
Lemma geocode_failure_is_address_not_found_witness :
  get_coordinates Sample.geocode "Timeout, Oyo" = None /\
  find_closest_help Sample.geocode Sample.directions Sample.geodesic stable_sort
    Sample.table true "Timeout" "Oyo" "key"
  = [Error "Address not found. Try adding a landmark."].
Proof.
  apply (@geocode_failure_is_address_not_found Sample.geocode
           Sample.directions Sample.geodesic stable_sort Sample.table
           "Timeout" "Oyo" "key").
  - reflexivity.
  - left. exists "Service timed out"%string. reflexivity.
Defined.

(** ** Candidates of a state *)

(** C6.  The candidates for a state are exactly the facilities of the
    table whose [state] cell is that very string (no folding of case, no
    trimming; a missing cell matches nothing).  When no facility of the
    table matches, an address that was found yields the error "No
    facilities found in this state." and nothing else is computed. *)
Theorem candidates_are_the_facilities_of_the_state
    (geocode : string -> result (option coords))
    (directions : string -> coords -> coords -> result value)
    (geodesic_km : coords -> coords -> result float)
    (sort_values : list Ranked -> list Ranked)
    (data : DataFrame)
    (user_loc confirm_state user_api_key : string) (u_lat u_lon : float) :
  (forall r,
     In r (candidates data confirm_state) <->
     In r data /\ state r = Some confirm_state) /\
  (truthy_str user_loc = true ->
   get_coordinates geocode (user_loc ++ ", " ++ confirm_state)%string
   = Some (u_lat, u_lon) ->
   truthy u_lat = true ->
   (forall r, In r data -> state r <> Some confirm_state) ->
   find_closest_help geocode directions geodesic_km sort_values data
     true user_loc confirm_state user_api_key
   = [Success u_lat u_lon; Error "No facilities found in this state."]).
Proof.
  split.
  - intros r. apply candidates_In.
  - intros Hloc Hgeo Hlat Hnone.
    rewrite (@page_found geocode directions geodesic_km sort_values data
               user_loc confirm_state user_api_key u_lat u_lon
               Hloc Hgeo Hlat).
    rewrite (@candidates_none data confirm_state Hnone). reflexivity.
Qed.

(** The comparison is exact: the sample table has three facilities in
    "Oyo" and none in "oyo". *)
Example candidates_case_sensitive :
  candidates Sample.table "Oyo" = [Sample.A; Sample.B; Sample.C] /\
  candidates Sample.table "oyo" = [].
Proof. split; vm_compute; reflexivity. Qed.

(** C6, witness: no facility of the sample table is in Kebbi. *)
Lemma candidates_are_the_facilities_of_the_state_witness :
  (forall r,
     In r (candidates Sample.table "Kebbi") <->
     In r Sample.table /\ state r = Some "Kebbi"%string) /\
  find_closest_help Sample.geocode Sample.directions Sample.geodesic stable_sort
    Sample.table true Sample.bodija "Kebbi" ""
  = [Success (fst Sample.origin) (snd Sample.origin);
     Error "No facilities found in this state."].
Proof.
  destruct (@candidates_are_the_facilities_of_the_state Sample.geocode
              Sample.directions Sample.geodesic stable_sort Sample.table
              Sample.bodija "Kebbi" ""
              (fst Sample.origin) (snd Sample.origin)) as [Hexact Hnone].
  split; [ exact Hexact | ].
  apply Hnone.
  - reflexivity.
  - vm_compute. reflexivity.
  - vm_compute. reflexivity.
  - intros r Hr. cbn in Hr.
    destruct Hr as [<- | [<- | [<- | [<- | []]]]]; discriminate.
Defined.

(** ** Drive time *)

Section DriveTime.

Variable directions : string -> coords -> coords -> result value.

(** What a response must hold for [get_drive_time] to return a pair. *)
Lemma read_summary_Some (routes : value) (duration_mins distance_km : float) :
  read_summary routes = Some (duration_mins, distance_km) <->
  exists summary duration distance,
    route_summary routes = Some summary /\
    getitem summary "duration" = Some duration /\
    truediv duration 60 = Some duration_mins /\
    getitem summary "distance" = Some distance /\
    truediv distance 1000 = Some distance_km.
Proof.
  unfold read_summary. split.
  - destruct (route_summary routes) as [summary | ]; [ | discriminate ].
    destruct (getitem summary "duration") as [duration | ] eqn:H2;
      [ | discriminate ].
    destruct (truediv duration 60) as [m | ] eqn:H3; [ | discriminate ].
    destruct (getitem summary "distance") as [distance | ] eqn:H4;
      [ | discriminate ].
    destruct (truediv distance 1000) as [k | ] eqn:H5; [ | discriminate ].
    intros H. injection H as <- <-.
    exists summary, duration, distance. repeat split; assumption.
  - intros [summary [duration [distance [H1 [H2 [H3 [H4 H5]]]]]]].
    rewrite H1, H2, H3, H4, H5. reflexivity.
Qed.

(** A row is shown with its straight-line distance whenever no drive
    time came back. *)
Lemma show_without_drive_time (user_api_key : string) (u_lat u_lon : float)
    (r : Ranked) :
  drive_time directions user_api_key u_lat u_lon r = None ->
  show directions user_api_key u_lat u_lon r
  = Expander {| exp_name := facility_name (row r);
                exp_level := facility_level (row r);
                exp_metrics := StraightLine (geo_dist r);
                exp_destination := (latitude (row r), longitude (row r)) |}.
Proof. intros H. unfold show. rewrite H. reflexivity. Qed.

Lemma of_Z_60 : of_Z 60 = S754_finite false 8444249301319680 (-47).
Proof. vm_compute. reflexivity. Qed.

(** A duration of zero seconds, as an integer or as a float of either
    sign, is zero minutes. *)
Lemma truediv_zero_60 (duration : value) :
  duration = PInt 0 \/ (exists s, duration = PFloat (S754_zero s)) ->
  exists s, truediv duration 60 = Some (S754_zero s).
Proof.
  intros [-> | [s ->]].
  - exists false. reflexivity.
  - exists s. cbn [truediv]. rewrite of_Z_60.
    destruct s; reflexivity.
Qed.

End DriveTime.

(** C7.  When the routing service fails for a ranked row, by raising
    (wrong key, no route, network error) or by a response from which the
    summary, its duration or its distance cannot be read,
    [get_drive_time] returns its "no drive time" value instead of
    raising, and the row is shown with the straight-line distance that
    the ranking gave it, unchanged. *)
Theorem failed_drive_time_keeps_straight_line
    (directions : string -> coords -> coords -> result value)
    (user_api_key : string) (u_lat u_lon : float) (r : Ranked) :
  (let start_coords := (u_lon, u_lat) in
   let end_coords := (longitude (row r), latitude (row r)) in
   (exists e, directions user_api_key start_coords end_coords = Raise e) \/
   (exists routes,
      directions user_api_key start_coords end_coords = Return routes /\
      read_summary routes = None)) ->
  get_drive_time directions (u_lon, u_lat)
    (longitude (row r), latitude (row r)) user_api_key = None /\
  drive_time directions user_api_key u_lat u_lon r = None /\
  show directions user_api_key u_lat u_lon r
  = Expander {| exp_name := facility_name (row r);
                exp_level := facility_level (row r);
                exp_metrics := StraightLine (geo_dist r);
                exp_destination := (latitude (row r), longitude (row r)) |}.
Proof.
  intros Hfail.
  assert (Hget : get_drive_time directions (u_lon, u_lat)
                   (longitude (row r), latitude (row r)) user_api_key = None).
  { unfold get_drive_time. destruct Hfail as [[e He] | [routes [Hr Hbad]]].
    - rewrite He. reflexivity.
    - rewrite Hr. exact Hbad. }
  assert (Hdrive : drive_time directions user_api_key u_lat u_lon r = None).
  { unfold drive_time. rewrite Hget. destruct (truthy_str user_api_key);
      reflexivity. }
  split; [ exact Hget | split; [ exact Hdrive | ] ].
  apply show_without_drive_time. exact Hdrive.
Qed.

(** C7, witness: the sample service answers the key "empty" with a summary
    that has neither duration nor distance. *)
Lemma failed_drive_time_keeps_straight_line_witness :
  let r := {| row := Sample.A; geo_dist := Sample.dec 2 2 |} in
  get_drive_time Sample.directions (snd Sample.origin, fst Sample.origin)
    (longitude Sample.A, latitude Sample.A) "empty" = None /\
  drive_time Sample.directions "empty" (fst Sample.origin)
    (snd Sample.origin) r = None /\
  show Sample.directions "empty" (fst Sample.origin) (snd Sample.origin) r
  = Expander {| exp_name := Some "A"%string;
                exp_level := Some "Primary"%string;
                exp_metrics := StraightLine (Sample.dec 2 2);
                exp_destination := (latitude Sample.A, longitude Sample.A) |}.
Proof.
  intros r.
  apply (@failed_drive_time_keeps_straight_line Sample.directions "empty"
           (fst Sample.origin) (snd Sample.origin) r).
  right. exists (Sample.geojson []). split; reflexivity.
Defined.

(** C8.  Without an API key (the key field left empty) the drive-time
    lookup of a ranked row is skipped: whatever the routing service would
    do, even raise, the result is "no drive time" and the row is shown
    with its straight-line distance. *)
Theorem no_api_key_no_drive_time
    (directions : string -> coords -> coords -> result value)
    (u_lat u_lon : float) (r : Ranked) :
  drive_time directions "" u_lat u_lon r = None /\
  show directions "" u_lat u_lon r
  = Expander {| exp_name := facility_name (row r);
                exp_level := facility_level (row r);
                exp_metrics := StraightLine (geo_dist r);
                exp_destination := (latitude (row r), longitude (row r)) |}.
Proof. split; reflexivity. Qed.

(** C9.  When the geocoder finds the address at latitude 0.0 (of either
    sign), [get_coordinates] returns that location, and yet the page is
    the error "Address not found. Try adding a landmark.": the script
    tests [if u_lat:], and a zero latitude is falsy.  No candidate is
    looked up or ranked. *)
Theorem zero_latitude_is_address_not_found
    (geocode : string -> result (option coords))
    (directions : string -> coords -> coords -> result value)
    (geodesic_km : coords -> coords -> result float)
    (sort_values : list Ranked -> list Ranked)
    (data : DataFrame)
    (user_loc confirm_state user_api_key : string)
    (s : bool) (u_lon : float) :
  truthy_str user_loc = true ->
  geocode ((user_loc ++ ", " ++ confirm_state) ++ ", Nigeria")%string
  = Return (Some (S754_zero s, u_lon)) ->
  get_coordinates geocode (user_loc ++ ", " ++ confirm_state)%string
  = Some (S754_zero s, u_lon) /\
  find_closest_help geocode directions geodesic_km sort_values data
    true user_loc confirm_state user_api_key
  = [Error "Address not found. Try adding a landmark."].
Proof.
  intros Hloc Hgeo.
  assert (Hget : get_coordinates geocode
                   (user_loc ++ ", " ++ confirm_state)%string
                 = Some (S754_zero s, u_lon)).
  { unfold get_coordinates. rewrite Hgeo. reflexivity. }
  split; [ exact Hget | ].
  unfold find_closest_help. rewrite Hloc, Hget. reflexivity.
Qed.

(** C9, witness: the sample geocoder places "Equator" in Oyo at latitude
    0.0. *)
Lemma zero_latitude_is_address_not_found_witness :
  get_coordinates Sample.geocode "Equator, Oyo"
  = Some (S754_zero false, Sample.dec 389 2) /\
  find_closest_help Sample.geocode Sample.directions Sample.geodesic stable_sort
    Sample.table true "Equator" "Oyo" ""
  = [Error "Address not found. Try adding a landmark."].
Proof.
  apply (@zero_latitude_is_address_not_found Sample.geocode
           Sample.directions Sample.geodesic stable_sort Sample.table
           "Equator" "Oyo" "" false (Sample.dec 389 2)).
  - reflexivity.
  - reflexivity.
Defined.

(** C10.  When a key is given and the routing service answers with a
    summary whose duration is zero seconds, [get_drive_time] succeeds
    with a drive time of zero minutes, and the row is nevertheless shown
    with its straight-line distance only: the script tests
    [if drive_mins:], and a zero drive time is falsy. *)
Theorem zero_duration_shows_straight_line
    (directions : string -> coords -> coords -> result value)
    (user_api_key : string) (u_lat u_lon : float) (r : Ranked)
    (routes summary duration distance : value) (distance_km : float) :
  truthy_str user_api_key = true ->
  directions user_api_key (u_lon, u_lat) (longitude (row r), latitude (row r))
  = Return routes ->
  route_summary routes = Some summary ->
  getitem summary "duration" = Some duration ->
  duration = PInt 0 \/ (exists s, duration = PFloat (S754_zero s)) ->
  getitem summary "distance" = Some distance ->
  truediv distance 1000 = Some distance_km ->
  (exists s,
     drive_time directions user_api_key u_lat u_lon r
     = Some (S754_zero s, distance_km)) /\
  show directions user_api_key u_lat u_lon r
  = Expander {| exp_name := facility_name (row r);
                exp_level := facility_level (row r);
                exp_metrics := StraightLine (geo_dist r);
                exp_destination := (latitude (row r), longitude (row r)) |}.
Proof.
  intros Hkey Hroutes Hsummary Hduration Hzero Hdistance Hkm.
  destruct (truediv_zero_60 Hzero) as [s Hmins].
  assert (Hdrive : drive_time directions user_api_key u_lat u_lon r
                   = Some (S754_zero s, distance_km)).
  { unfold drive_time, get_drive_time. rewrite Hkey, Hroutes.
    apply read_summary_Some.
    exists summary, duration, distance. repeat split; assumption. }
  split; [ exists s; exact Hdrive | ].
  unfold show. rewrite Hdrive. reflexivity.
Qed.

(** C10, witness: the sample service answers the key "still" with a route
    of 1.2 km and no duration. *)
Lemma zero_duration_shows_straight_line_witness :
  let r := {| row := Sample.A; geo_dist := Sample.dec 2 2 |} in
  (exists s,
     drive_time Sample.directions "still" (fst Sample.origin)
       (snd Sample.origin) r
     = Some (S754_zero s, PyFloat.div (Sample.dec 12 1) (of_Z 1000))) /\
  show Sample.directions "still" (fst Sample.origin) (snd Sample.origin) r
  = Expander {| exp_name := Some "A"%string;
                exp_level := Some "Primary"%string;
                exp_metrics := StraightLine (Sample.dec 2 2);
                exp_destination := (latitude Sample.A, longitude Sample.A) |}.
Proof.
  intros r.
  apply (@zero_duration_shows_straight_line Sample.directions "still"
           (fst Sample.origin) (snd Sample.origin) r
           (Sample.geojson [("distance", PFloat (Sample.dec 12 1));
                            ("duration", PFloat PyFloat.zero)]%string)
           (PDict [("distance", PFloat (Sample.dec 12 1));
                   ("duration", PFloat PyFloat.zero)]%string)
           (PFloat PyFloat.zero) (PFloat (Sample.dec 12 1))
           (PyFloat.div (Sample.dec 12 1) (of_Z 1000))).
  - reflexivity.
  - reflexivity.
  - reflexivity.
  - reflexivity.
  - right. exists false. reflexivity.
  - reflexivity.
  - reflexivity.
Defined.

(** ** Further properties of the emergency finder *)

Section Outcomes.

Variable geocode : string -> result (option coords).
Variable directions : string -> coords -> coords -> result value.
Variable geodesic_km : coords -> coords -> result float.
Variable sort_values : list Ranked -> list Ranked.
Variable data : DataFrame.

Let finder := find_closest_help geocode directions geodesic_km sort_values data.

(** What [get_coordinates] returns, read off the geocoder. *)
Lemma get_coordinates_Some (user_loc confirm_state : string) (u : coords) :
  get_coordinates geocode (user_loc ++ ", " ++ confirm_state)%string = Some u
  <-> geocode (geocoder_query user_loc confirm_state) = Return (Some u).
Proof.
  unfold get_coordinates, geocoder_query.
  destruct (geocode _) as [[v | ] | e]; split; intros H;
    try discriminate; congruence.
Qed.

Lemma get_coordinates_None (user_loc confirm_state : string) :
  get_coordinates geocode (user_loc ++ ", " ++ confirm_state)%string = None
  <-> (exists e, geocode (geocoder_query user_loc confirm_state) = Raise e)
      \/ geocode (geocoder_query user_loc confirm_state) = Return None.
Proof.
  unfold get_coordinates, geocoder_query.
  destruct (geocode _) as [[v | ] | e]; split; intros H;
    try discriminate; try reflexivity.
  - destruct H as [[e He] | He]; discriminate.
  - right. reflexivity.
  - left. exists e. reflexivity.
Qed.

Lemma truthy_str_true (s : string) : truthy_str s = true <-> s <> ""%string.
Proof. destruct s; cbn; split; congruence. Qed.

Lemma truthy_false (x : float) : truthy x = false <-> PyFloat.eqb x zero = true.
Proof. unfold truthy. apply negb_false_iff. Qed.

Lemma truthy_true (x : float) : truthy x = true <-> PyFloat.eqb x zero = false.
Proof. unfold truthy. apply negb_true_iff. Qed.

(** The pages of a pressed button with a location. *)
Variant outcome (user_loc confirm_state user_api_key : string) : list ui -> Prop :=
| not_found :
    get_coordinates geocode (user_loc ++ ", " ++ confirm_state)%string = None ->
    outcome user_loc confirm_state user_api_key [Error address_not_found]
| found_at_zero u_lat u_lon :
    get_coordinates geocode (user_loc ++ ", " ++ confirm_state)%string
    = Some (u_lat, u_lon) ->
    truthy u_lat = false ->
    outcome user_loc confirm_state user_api_key [Error address_not_found]
| found_nothing u_lat u_lon :
    get_coordinates geocode (user_loc ++ ", " ++ confirm_state)%string
    = Some (u_lat, u_lon) ->
    truthy u_lat = true ->
    candidates data confirm_state = [] ->
    outcome user_loc confirm_state user_api_key
      [Success u_lat u_lon; Error no_facilities]
| found_some u_lat u_lon ranked :
    get_coordinates geocode (user_loc ++ ", " ++ confirm_state)%string
    = Some (u_lat, u_lon) ->
    truthy u_lat = true ->
    candidates data confirm_state <> [] ->
    top_5 geodesic_km sort_values (u_lat, u_lon)
          (candidates data confirm_state) = Return ranked ->
    outcome user_loc confirm_state user_api_key
      (Success u_lat u_lon :: Subheader "Top 5 Nearest Facilities" ::
       map (show directions user_api_key u_lat u_lon) ranked)
| found_crash u_lat u_lon e :
    get_coordinates geocode (user_loc ++ ", " ++ confirm_state)%string
    = Some (u_lat, u_lon) ->
    truthy u_lat = true ->
    candidates data confirm_state <> [] ->
    top_5 geodesic_km sort_values (u_lat, u_lon)
          (candidates data confirm_state) = Raise e ->
    outcome user_loc confirm_state user_api_key
      [Success u_lat u_lon; Uncaught e].

Lemma finder_outcome (user_loc confirm_state user_api_key : string) :
  user_loc <> ""%string ->
  outcome user_loc confirm_state user_api_key
    (finder true user_loc confirm_state user_api_key).
Proof.
  intros Hloc. apply truthy_str_true in Hloc.
  unfold finder, find_closest_help. rewrite Hloc. cbn [andb].
  destruct (get_coordinates geocode _) as [[u_lat u_lon] | ] eqn:Hgeo.
  - destruct (truthy u_lat) eqn:Hlat.
    + destruct (candidates data confirm_state) as [ | r l ] eqn:Hc.
      * apply found_nothing; assumption.
      * rewrite <- Hc.
        assert (Hrows : candidates data confirm_state <> [])
          by (rewrite Hc; discriminate).
        destruct (top_5 geodesic_km sort_values (u_lat, u_lon)
                    (candidates data confirm_state)) as [ranked | e] eqn:Htop.
        -- apply found_some; assumption.
        -- apply found_crash; assumption.
    + eapply found_at_zero; eassumption.
  - apply not_found. exact Hgeo.
Qed.

Lemma finder_idle (find_btn : bool) (user_loc confirm_state key : string) :
  find_btn = false \/ user_loc = ""%string ->
  finder find_btn user_loc confirm_state key = [].
Proof.
  unfold finder, find_closest_help.
  intros [-> | ->]; [ reflexivity | ]. rewrite andb_false_r. reflexivity.
Qed.

Lemma show_is_expander (key : string) (u_lat u_lon : float) (r : Ranked) :
  show directions key u_lat u_lon r
  = expander_of r (shown_metrics (drive_time directions key u_lat u_lon r) r).
Proof. reflexivity. Qed.

Lemma In_map_show_Error (key : string) (u_lat u_lon : float)
    (l : list Ranked) (msg : string) :
  ~ In (Error msg) (map (show directions key u_lat u_lon) l).
Proof.
  intros H. apply in_map_iff in H. destruct H as [r [Hr _]]. discriminate.
Qed.

Lemma filter_expanders_show (key : string) (u_lat u_lon : float)
    (l : list Ranked) :
  filter is_expander (map (show directions key u_lat u_lon) l)
  = map (show directions key u_lat u_lon) l.
Proof. induction l as [ | r l IH ]; cbn; congruence. Qed.

End Outcomes.

(** X1.  The emergency finder puts nothing on the page exactly when the
    button was not pressed or the location field is empty; pressed with
    a location, it always shows something. *)
Theorem finder_shows_nothing_iff
    (geocode : string -> result (option coords))
    (directions : string -> coords -> coords -> result value)
    (geodesic_km : coords -> coords -> result float)
    (sort_values : list Ranked -> list Ranked)
    (data : DataFrame) (find_btn : bool)
    (user_loc confirm_state user_api_key : string) :
  find_closest_help geocode directions geodesic_km sort_values data
    find_btn user_loc confirm_state user_api_key = []
  <-> find_btn = false \/ user_loc = ""%string.
Proof.
  split.
  - intros Hpage. destruct find_btn; [ | left; reflexivity ].
    destruct (string_dec user_loc "") as [Hloc | Hloc]; [ right; exact Hloc | ].
    pose proof (@finder_outcome geocode directions geodesic_km sort_values
                  data user_loc confirm_state user_api_key Hloc) as Ho.
    rewrite Hpage in Ho. inversion Ho.
  - apply finder_idle.
Qed.

(** X2.  The error "Address not found. Try adding a landmark." is shown
    exactly when the button was pressed with a location and the geocoder,
    asked for "<location>, <state>, Nigeria", raised, found nothing, or
    found a place whose latitude compares equal to zero; the page then
    holds nothing else. *)
Theorem address_not_found_iff
    (geocode : string -> result (option coords))
    (directions : string -> coords -> coords -> result value)
    (geodesic_km : coords -> coords -> result float)
    (sort_values : list Ranked -> list Ranked)
    (data : DataFrame) (find_btn : bool)
    (user_loc confirm_state user_api_key : string) :
  let page := find_closest_help geocode directions geodesic_km sort_values
                data find_btn user_loc confirm_state user_api_key in
  let answer := geocode (geocoder_query user_loc confirm_state) in
  (In (Error address_not_found) page <->
   (find_btn = true /\ user_loc <> ""%string) /\
   ((exists e, answer = Raise e) \/ answer = Return None \/
    (exists u_lat u_lon,
       answer = Return (Some (u_lat, u_lon)) /\
       PyFloat.eqb u_lat zero = true))) /\
  (In (Error address_not_found) page -> page = [Error address_not_found]).
Proof.
  intros page answer.
  assert (Hcases :
    In (Error address_not_found) page ->
    (find_btn = true /\ user_loc <> ""%string) /\
    ((exists e, answer = Raise e) \/ answer = Return None \/
     (exists u_lat u_lon,
        answer = Return (Some (u_lat, u_lon)) /\
        PyFloat.eqb u_lat zero = true)) /\
    page = [Error address_not_found]).
  { intros Hin. subst page.
    destruct find_btn;
      [ | rewrite finder_idle in Hin by (left; reflexivity); destruct Hin ].
    destruct (string_dec user_loc "") as [Hloc | Hloc];
      [ rewrite finder_idle in Hin by (right; exact Hloc); destruct Hin | ].
    split; [ split; [ reflexivity | exact Hloc ] | ].
    pose proof (@finder_outcome geocode directions geodesic_km sort_values
                  data user_loc confirm_state user_api_key Hloc) as Ho.
    inversion Ho as [ Hgeo Hp | u_lat u_lon Hgeo Hlat Hp
                    | u_lat u_lon Hgeo Hlat Hc Hp
                    | u_lat u_lon ranked Hgeo Hlat Hc Htop Hp
                    | u_lat u_lon e Hgeo Hlat Hc Htop Hp ].
    - split; [ | reflexivity ].
      apply get_coordinates_None in Hgeo.
      destruct Hgeo as [He | Hn]; [ left; exact He | right; left; exact Hn ].
    - split; [ | reflexivity ]. right. right. exists u_lat, u_lon. split.
      + apply get_coordinates_Some. exact Hgeo.
      + apply truthy_false. exact Hlat.
    - rewrite <- Hp in Hin.
      destruct Hin as [Hin | [Hin | []]]; discriminate.
    - rewrite <- Hp in Hin.
      destruct Hin as [Hin | [Hin | Hin]]; try discriminate.
      apply In_map_show_Error in Hin. destruct Hin.
    - rewrite <- Hp in Hin.
      destruct Hin as [Hin | [Hin | []]]; discriminate. }
  split; [ split | ].
  - intros Hin. destruct (Hcases Hin) as [Ht [Hg _]]. split; assumption.
  - intros [[-> Hloc] Hg]. subst page.
    assert (Hpage : find_closest_help geocode directions geodesic_km
                      sort_values data true user_loc confirm_state
                      user_api_key = [Error address_not_found]).
    { unfold find_closest_help.
      rewrite (proj2 (truthy_str_true user_loc) Hloc). cbn [andb].
      destruct Hg as [He | [Hn | [u_lat [u_lon [Hs Hz]]]]].
      - rewrite (proj2 (get_coordinates_None geocode user_loc confirm_state)
                   (or_introl He)). reflexivity.
      - rewrite (proj2 (get_coordinates_None geocode user_loc confirm_state)
                   (or_intror Hn)). reflexivity.
      - rewrite (proj2 (get_coordinates_Some geocode user_loc confirm_state
                          (u_lat, u_lon)) Hs).
        rewrite (proj2 (truthy_false u_lat) Hz). reflexivity. }
    rewrite Hpage. left. reflexivity.
  - intros Hin. apply (Hcases Hin).
Qed.

(** X3.  The error "No facilities found in this state." is shown exactly
    when the button was pressed with a location, the geocoder found a
    place whose latitude is not zero, and no row of the table has the
    confirmed state in its state cell; the page then holds the found
    coordinates and that error, and nothing is ranked. *)
Theorem no_facilities_iff
    (geocode : string -> result (option coords))
    (directions : string -> coords -> coords -> result value)
    (geodesic_km : coords -> coords -> result float)
    (sort_values : list Ranked -> list Ranked)
    (data : DataFrame) (find_btn : bool)
    (user_loc confirm_state user_api_key : string) :
  let page := find_closest_help geocode directions geodesic_km sort_values
                data find_btn user_loc confirm_state user_api_key in
  let answer := geocode (geocoder_query user_loc confirm_state) in
  (In (Error no_facilities) page <->
   (find_btn = true /\ user_loc <> ""%string) /\
   (forall r, In r data -> state r <> Some confirm_state) /\
   exists u_lat u_lon,
     answer = Return (Some (u_lat, u_lon)) /\
     PyFloat.eqb u_lat zero = false) /\
  (forall u_lat u_lon,
     answer = Return (Some (u_lat, u_lon)) ->
     In (Error no_facilities) page ->
     page = [Success u_lat u_lon; Error no_facilities]).
Proof.
  intros page answer.
  assert (Hcases :
    In (Error no_facilities) page ->
    (find_btn = true /\ user_loc <> ""%string) /\
    (forall r, In r data -> state r <> Some confirm_state) /\
    exists u_lat u_lon,
      answer = Return (Some (u_lat, u_lon)) /\
      PyFloat.eqb u_lat zero = false /\
      page = [Success u_lat u_lon; Error no_facilities]).
  { intros Hin. subst page.
    destruct find_btn;
      [ | rewrite finder_idle in Hin by (left; reflexivity); destruct Hin ].
    destruct (string_dec user_loc "") as [Hloc | Hloc];
      [ rewrite finder_idle in Hin by (right; exact Hloc); destruct Hin | ].
    split; [ split; [ reflexivity | exact Hloc ] | ].
    pose proof (@finder_outcome geocode directions geodesic_km sort_values
                  data user_loc confirm_state user_api_key Hloc) as Ho.
    inversion Ho as [ Hgeo Hp | u_lat u_lon Hgeo Hlat Hp
                    | u_lat u_lon Hgeo Hlat Hc Hp
                    | u_lat u_lon ranked Hgeo Hlat Hc Htop Hp
                    | u_lat u_lon e Hgeo Hlat Hc Htop Hp ];
      rewrite <- Hp in Hin.
    + destruct Hin as [Hin | []]. discriminate.
    + destruct Hin as [Hin | []]. discriminate.
    + split.
      * intros r Hr Hst.
        assert (Hrc : In r (candidates data confirm_state))
          by (apply candidates_In; split; assumption).
        rewrite Hc in Hrc. destruct Hrc.
      * exists u_lat, u_lon. split; [ | split ].
        -- apply get_coordinates_Some. exact Hgeo.
        -- apply truthy_true. exact Hlat.
        -- reflexivity.
    + destruct Hin as [Hin | [Hin | Hin]]; try discriminate.
      apply In_map_show_Error in Hin. destruct Hin.
    + destruct Hin as [Hin | [Hin | []]]; discriminate. }
  split; [ split | ].
  - intros Hin. destruct (Hcases Hin) as [Ht [Hn [u_lat [u_lon [Hg [Hz _]]]]]].
    split; [ exact Ht | split; [ exact Hn | ] ].
    exists u_lat, u_lon. split; assumption.
  - intros [[-> Hloc] [Hnone [u_lat [u_lon [Hg Hz]]]]]. subst page.
    unfold find_closest_help.
    rewrite (proj2 (truthy_str_true user_loc) Hloc). cbn [andb].
    rewrite (proj2 (get_coordinates_Some geocode user_loc confirm_state
                      (u_lat, u_lon)) Hg).
    rewrite (proj2 (truthy_true u_lat) Hz).
    rewrite (@candidates_none data confirm_state Hnone).
    right. left. reflexivity.
  - intros u_lat u_lon Hg Hin.
    destruct (Hcases Hin) as [_ [_ [u_lat' [u_lon' [Hg' [_ Hpage]]]]]].
    unfold answer in *. rewrite Hg in Hg'. injection Hg' as <- <-.
    exact Hpage.
Qed.

(** X3, witness: the sample table has no facility in Kebbi. *)
Lemma no_facilities_iff_witness :
  In (Error no_facilities)
     (find_closest_help Sample.geocode Sample.directions Sample.geodesic
        stable_sort Sample.table true Sample.bodija "Kebbi" "").
Proof.
  apply (proj2 (proj1 (@no_facilities_iff Sample.geocode Sample.directions
                         Sample.geodesic stable_sort Sample.table true
                         Sample.bodija "Kebbi" ""))).
  split; [ split; [ reflexivity | discriminate ] | split ].
  - intros r Hr. cbn in Hr.
    destruct Hr as [<- | [<- | [<- | [<- | []]]]]; discriminate.
  - exists (fst Sample.origin), (snd Sample.origin).
    split; [ reflexivity | vm_compute; reflexivity ].
Defined.

(** X4.  Whatever the table, the state and the services, the page never
    holds more than five expanders.  Once the address is found at a
    latitude that is not zero: when geopy gives a distance for every
    facility of the state, the page holds min(5, number of those
    facilities) expanders; when geopy raises for one of them, the
    exception is caught nowhere and the page holds no expander. *)
Theorem expanders_at_most_five
    (geocode : string -> result (option coords))
    (directions : string -> coords -> coords -> result value)
    (geodesic_km : coords -> coords -> result float)
    (sort_values : list Ranked -> list Ranked)
    (data : DataFrame) (find_btn : bool)
    (user_loc confirm_state user_api_key : string) :
  sort_values_spec sort_values ->
  let page := find_closest_help geocode directions geodesic_km sort_values
                data find_btn user_loc confirm_state user_api_key in
  length (filter is_expander page) <= 5 /\
  (forall u_lat u_lon,
     find_btn = true -> user_loc <> ""%string ->
     geocode (geocoder_query user_loc confirm_state)
     = Return (Some (u_lat, u_lon)) ->
     PyFloat.eqb u_lat zero = false ->
     ((forall r, In r (candidates data confirm_state) ->
         exists km,
           geodesic_km (u_lat, u_lon) (latitude r, longitude r) = Return km) ->
      length (filter is_expander page)
      = Nat.min 5 (length (candidates data confirm_state))) /\
     (forall r e,
        In r (candidates data confirm_state) ->
        geodesic_km (u_lat, u_lon) (latitude r, longitude r) = Raise e ->
        exists e', page = [Success u_lat u_lon; Uncaught e'])).
Proof.
  intros Hsv page.
  assert (Hshown : forall u_lat u_lon ranked,
    top_5 geodesic_km sort_values (u_lat, u_lon)
          (candidates data confirm_state) = Return ranked ->
    length (filter is_expander
              (Success u_lat u_lon :: Subheader "Top 5 Nearest Facilities" ::
               map (show directions user_api_key u_lat u_lon) ranked))
    = Nat.min 5 (length (candidates data confirm_state))).
  { intros u_lat u_lon ranked Htop. cbn [filter is_expander].
    rewrite filter_expanders_show, length_map.
    eapply top_5_length; eassumption. }
  split.
  - subst page. destruct find_btn;
      [ | rewrite finder_idle by (left; reflexivity); cbn; lia ].
    destruct (string_dec user_loc "") as [Hloc | Hloc];
      [ rewrite finder_idle by (right; exact Hloc); cbn; lia | ].
    pose proof (@finder_outcome geocode directions geodesic_km sort_values
                  data user_loc confirm_state user_api_key Hloc) as Ho.
    inversion Ho as [ | | | u_lat u_lon ranked Hgeo Hlat Hc Htop Hp | ];
      try (cbn; lia).
    rewrite (Hshown _ _ _ Htop). apply Nat.le_min_l.
  - intros u_lat u_lon -> Hloc Hgeo Hlat.
    assert (Hpage :
      page = Success u_lat u_lon ::
             match candidates data confirm_state with
             | [] => [Error no_facilities]
             | _ :: _ =>
                 match top_5 geodesic_km sort_values (u_lat, u_lon)
                             (candidates data confirm_state) with
                 | Return ranked =>
                     Subheader "Top 5 Nearest Facilities" ::
                     map (show directions user_api_key u_lat u_lon) ranked
                 | Raise e => [Uncaught e]
                 end
             end).
    { subst page. apply page_found.
      - apply truthy_str_true. exact Hloc.
      - apply get_coordinates_Some. exact Hgeo.
      - apply truthy_true. exact Hlat. }
    split.
    + intros Hall. rewrite Hpage.
      destruct (candidates data confirm_state) as [ | c l ] eqn:Hc;
        [ reflexivity | ].
      destruct (@with_geo_dist_total geodesic_km (u_lat, u_lon) (c :: l))
        as [frame Hframe]; [ discriminate | exact Hall | ].
      assert (Htop : top_5 geodesic_km sort_values (u_lat, u_lon) (c :: l)
                     = Return (head 5 (sort_values frame)))
        by (unfold top_5; rewrite Hframe; reflexivity).
      rewrite Htop. exact (Hshown _ _ _ Htop).
    + intros r e Hr He. rewrite Hpage.
      destruct (@top_5_rejected geodesic_km sort_values (u_lat, u_lon)
                  _ r e Hr He) as [e' Htop].
      rewrite Htop. exists e'.
      destruct (candidates data confirm_state); [ destruct Hr | reflexivity ].
Qed.

(** X4, witness: three facilities of Oyo, three expanders. *)
Lemma expanders_at_most_five_witness :
  let page := find_closest_help Sample.geocode Sample.directions Sample.geodesic
                stable_sort Sample.table true Sample.bodija "Oyo" "" in
  length (filter is_expander page) <= 5 /\
  length (filter is_expander page)
  = Nat.min 5 (length (candidates Sample.table "Oyo")).
Proof.
  intros page.
  destruct (@expanders_at_most_five Sample.geocode Sample.directions
              Sample.geodesic stable_sort Sample.table true Sample.bodija
              "Oyo" "" stable_sort_spec) as [Hle Heq].
  split; [ exact Hle | ].
  apply (Heq (fst Sample.origin) (snd Sample.origin)).
  - reflexivity.
  - discriminate.
  - reflexivity.
  - vm_compute. reflexivity.
  - intros r Hr. vm_compute in Hr.
    destruct Hr as [<- | [<- | [<- | []]]];
      eexists; vm_compute; reflexivity.
Defined.

(** The page for a table in which a facility of the state has latitude
    200: the address is found, geopy rejects the point, and the page ends
    with the exception. *)
Example stray_candidate_ends_the_page :
  find_closest_help Sample.geocode Sample.directions Sample.geodesic
    stable_sort [Sample.Stray; Sample.A] true Sample.bodija "Oyo" ""
  = [Success (fst Sample.origin) (snd Sample.origin);
     Uncaught "Latitude must be in the [-90; 90] range."].
Proof. vm_compute. reflexivity. Qed.

(** X5.  Every expander on the page is for a facility of the loaded table
    whose state cell is the confirmed state: it carries that facility's
    name and level, and its link leads to that facility's coordinates. *)
Theorem shown_facilities_are_of_the_state
    (geocode : string -> result (option coords))
    (directions : string -> coords -> coords -> result value)
    (geodesic_km : coords -> coords -> result float)
    (sort_values : list Ranked -> list Ranked)
    (data : DataFrame) (find_btn : bool)
    (user_loc confirm_state user_api_key : string) (e : expander) :
  sort_values_spec sort_values ->
  In (Expander e)
     (find_closest_help geocode directions geodesic_km sort_values data
        find_btn user_loc confirm_state user_api_key) ->
  exists r,
    In r data /\ state r = Some confirm_state /\
    exp_name e = facility_name r /\ exp_level e = facility_level r /\
    exp_destination e = (latitude r, longitude r).
Proof.
  intros Hsv Hin.
  destruct find_btn;
    [ | rewrite finder_idle in Hin by (left; reflexivity); destruct Hin ].
  destruct (string_dec user_loc "") as [Hloc | Hloc];
    [ rewrite finder_idle in Hin by (right; exact Hloc); destruct Hin | ].
  pose proof (@finder_outcome geocode directions geodesic_km sort_values
                data user_loc confirm_state user_api_key Hloc) as Ho.
  inversion Ho as [ Hgeo Hp | u_lat u_lon Hgeo Hlat Hp
                  | u_lat u_lon Hgeo Hlat Hc Hp
                  | u_lat u_lon ranked Hgeo Hlat Hc Htop Hp
                  | u_lat u_lon e' Hgeo Hlat Hc Htop Hp ];
    rewrite <- Hp in Hin.
  - destruct Hin as [Hin | []]. discriminate.
  - destruct Hin as [Hin | []]. discriminate.
  - destruct Hin as [Hin | [Hin | []]]; discriminate.
  - destruct Hin as [Hin | [Hin | Hin]]; try discriminate.
    apply in_map_iff in Hin. destruct Hin as [x [Hshow Hranked]].
    destruct (@top_5_rows geodesic_km sort_values Hsv _ _ _ x Htop Hranked)
      as [Hrow _].
    apply candidates_In in Hrow. destruct Hrow as [Hdata Hstate].
    exists (row x). unfold show in Hshow. injection Hshow as <-.
    cbn. repeat split; assumption.
  - destruct Hin as [Hin | [Hin | []]]; discriminate.
Qed.

(** X5, witness: the expander of facility A on the page for Oyo. *)
Lemma shown_facilities_are_of_the_state_witness :
  exists r,
    In r Sample.table /\ state r = Some "Oyo"%string /\
    Some "A"%string = facility_name r /\
    Some "Primary"%string = facility_level r /\
    (latitude Sample.A, longitude Sample.A) = (latitude r, longitude r).
Proof.
  apply (@shown_facilities_are_of_the_state Sample.geocode Sample.directions
           Sample.geodesic stable_sort Sample.table true Sample.bodija "Oyo" ""
           {| exp_name := Some "A"%string;
              exp_level := Some "Primary"%string;
              exp_metrics :=
                StraightLine (Sample.km Sample.origin
                                (latitude Sample.A, longitude Sample.A));
              exp_destination := (latitude Sample.A, longitude Sample.A) |}).
  - exact stable_sort_spec.
  - vm_compute. right. right. left. reflexivity.
Defined.

(** X6.  The API key and the routing service change nothing but the
    metrics inside the expanders: the messages of the page, the
    facilities shown, their order and their links are the same for any
    two keys and any two routing services.  In particular a drive time
    never reorders the facilities. *)
Theorem routing_changes_metrics_only
    (geocode : string -> result (option coords))
    (directions directions' : string -> coords -> coords -> result value)
    (geodesic_km : coords -> coords -> result float)
    (sort_values : list Ranked -> list Ranked)
    (data : DataFrame) (find_btn : bool)
    (user_loc confirm_state user_api_key user_api_key' : string) :
  let page := find_closest_help geocode directions geodesic_km sort_values
                data find_btn user_loc confirm_state user_api_key in
  let page' := find_closest_help geocode directions' geodesic_km sort_values
                 data find_btn user_loc confirm_state user_api_key' in
  map facility_shown page = map facility_shown page' /\
  map message_shown page = map message_shown page'.
Proof.
  intros page page'. subst page page'. unfold find_closest_help.
  destruct (find_btn && truthy_str user_loc); [ | split; reflexivity ].
  destruct (get_coordinates geocode _) as [[u_lat u_lon] | ];
    [ | split; reflexivity ].
  destruct (truthy u_lat); [ | split; reflexivity ].
  destruct (candidates data confirm_state) as [ | r l ];
    [ split; reflexivity | ].
  destruct (top_5 geodesic_km sort_values (u_lat, u_lon) (r :: l))
    as [ranked | e]; [ | split; reflexivity ].
  cbn [map facility_shown message_shown]. rewrite !map_map.
  split; do 2 f_equal; apply map_ext; intros x; reflexivity.
Qed.

(** X7.  The geocoder is asked one question, "<location>, <state>,
    Nigeria": two geocoders that give the same answer to it give the
    same page, whatever they answer to anything else. *)
Theorem geocoder_is_asked_one_query
    (geocode geocode' : string -> result (option coords))
    (directions : string -> coords -> coords -> result value)
    (geodesic_km : coords -> coords -> result float)
    (sort_values : list Ranked -> list Ranked)
    (data : DataFrame) (find_btn : bool)
    (user_loc confirm_state user_api_key : string) :
  geocode (geocoder_query user_loc confirm_state)
  = geocode' (geocoder_query user_loc confirm_state) ->
  find_closest_help geocode directions geodesic_km sort_values data
    find_btn user_loc confirm_state user_api_key
  = find_closest_help geocode' directions geodesic_km sort_values data
      find_btn user_loc confirm_state user_api_key.
Proof.
  intros Hsame. unfold find_closest_help, get_coordinates.
  fold (geocoder_query user_loc confirm_state). rewrite Hsame. reflexivity.
Qed.

(** X7, witness: the two sample geocoders agree on Bodija Market in Oyo
    and on little else. *)
Lemma geocoder_is_asked_one_query_witness :
  find_closest_help Sample.geocode Sample.directions Sample.geodesic stable_sort
    Sample.table true Sample.bodija "Oyo" "k"
  = find_closest_help Gazetteer.geocode Sample.directions Sample.geodesic
      stable_sort Sample.table true Sample.bodija "Oyo" "k".
Proof.
  apply (@geocoder_is_asked_one_query Sample.geocode Gazetteer.geocode
           Sample.directions Sample.geodesic stable_sort Sample.table true
           Sample.bodija "Oyo" "k").
  reflexivity.
Defined.

(** X8.  The routing service is asked only about the ranked rows, with
    the typed key, from (longitude, latitude) of the found address to
    (longitude, latitude) of the row: two routing services that answer
    those calls alike give the same page. *)
Theorem routing_is_asked_about_ranked_rows
    (geocode : string -> result (option coords))
    (directions directions' : string -> coords -> coords -> result value)
    (geodesic_km : coords -> coords -> result float)
    (sort_values : list Ranked -> list Ranked)
    (data : DataFrame) (find_btn : bool)
    (user_loc confirm_state user_api_key : string) (u_lat u_lon : float) :
  geocode (geocoder_query user_loc confirm_state)
  = Return (Some (u_lat, u_lon)) ->
  (forall ranked r,
     top_5 geodesic_km sort_values (u_lat, u_lon)
           (candidates data confirm_state) = Return ranked ->
     In r ranked ->
     directions user_api_key (u_lon, u_lat)
       (longitude (row r), latitude (row r))
     = directions' user_api_key (u_lon, u_lat)
         (longitude (row r), latitude (row r))) ->
  find_closest_help geocode directions geodesic_km sort_values data
    find_btn user_loc confirm_state user_api_key
  = find_closest_help geocode directions' geodesic_km sort_values data
      find_btn user_loc confirm_state user_api_key.
Proof.
  intros Hgeo Hsame. apply get_coordinates_Some in Hgeo.
  unfold find_closest_help. rewrite Hgeo.
  destruct (find_btn && truthy_str user_loc); [ | reflexivity ].
  destruct (truthy u_lat); [ | reflexivity ].
  destruct (candidates data confirm_state) as [ | c l ]; [ reflexivity | ].
  destruct (top_5 geodesic_km sort_values (u_lat, u_lon) (c :: l))
    as [ranked | e]; [ | reflexivity ].
  do 2 f_equal. apply map_ext_in. intros r Hr.
  unfold show, drive_time, get_drive_time.
  rewrite (Hsame ranked r eq_refl Hr). reflexivity.
Qed.

(** X8, witness: the two sample routing services answer the key "k"
    alike. *)
Lemma routing_is_asked_about_ranked_rows_witness :
  find_closest_help Sample.geocode Sample.directions Sample.geodesic stable_sort
    Sample.table true Sample.bodija "Oyo" "k"
  = find_closest_help Sample.geocode Gazetteer.directions Sample.geodesic
      stable_sort Sample.table true Sample.bodija "Oyo" "k".
Proof.
  apply (@routing_is_asked_about_ranked_rows Sample.geocode
           Sample.directions Gazetteer.directions Sample.geodesic stable_sort
           Sample.table true Sample.bodija "Oyo" "k"
           (fst Sample.origin) (snd Sample.origin)).
  - reflexivity.
  - intros ranked r _ _. reflexivity.
Defined.

(** ** Further properties of the ranking *)

(** X9.  The ranking keeps the nearest: a candidate that is left out is
    at least as far from the origin as every row that is kept. *)
Theorem top_5_are_the_nearest
    (geodesic_km : coords -> coords -> result float)
    (sort_values : list Ranked -> list Ranked)
    (origin : coords) (df : DataFrame) (frame ranked : list Ranked)
    (near far : Ranked) :
  sort_values_spec sort_values ->
  with_geo_dist geodesic_km origin df = Return frame ->
  top_5 geodesic_km sort_values origin df = Return ranked ->
  In near ranked ->
  In far frame ->
  ~ In far ranked ->
  ascending (geo_dist near) (geo_dist far) = true.
Proof.
  intros Hsv Hframe Hranked Hnear Hfar Hout.
  unfold top_5 in Hranked. rewrite Hframe in Hranked.
  assert (Hr : ranked = head 5 (sort_values frame)) by congruence.
  subst ranked.
  destruct (head_5_nearest Hsv frame) as [rest [Hperm Hrest]].
  apply (Permutation_in _ Hperm) in Hfar. apply in_app_or in Hfar.
  destruct Hfar as [Hfar | Hfar]; [ contradiction | ].
  rewrite Forall_forall in Hrest. specialize (Hrest far Hfar).
  rewrite Forall_forall in Hrest. exact (Hrest near Hnear).
Qed.

(** X9, witness: of six candidates the facility of Ikeja, in another
    state, is left out, and it is farther than facility A. *)
Lemma top_5_are_the_nearest_witness :
  let to r := {| row := r;
                 geo_dist := Sample.km Sample.origin
                               (latitude r, longitude r) |} in
  ascending (geo_dist (to Sample.A)) (geo_dist (to Sample.Ikeja)) = true.
Proof.
  intros to.
  eapply (@top_5_are_the_nearest Sample.geodesic stable_sort Sample.origin
            Gazetteer.six _ _ (to Sample.A) (to Sample.Ikeja)
            stable_sort_spec).
  - vm_compute. reflexivity.
  - vm_compute. reflexivity.
  - vm_compute. left. reflexivity.
  - vm_compute. left. reflexivity.
  - intros Hin. vm_compute in Hin.
    repeat (destruct Hin as [Hin | Hin]; [ discriminate | ]). exact Hin.
Defined.

(** X10.  With five candidates or fewer nothing is left out: the ranking
    is the whole candidate frame, rearranged. *)
Theorem top_5_of_few_is_all
    (geodesic_km : coords -> coords -> result float)
    (sort_values : list Ranked -> list Ranked)
    (origin : coords) (df : DataFrame) (frame : list Ranked) :
  sort_values_spec sort_values ->
  length df <= 5 ->
  with_geo_dist geodesic_km origin df = Return frame ->
  exists ranked,
    top_5 geodesic_km sort_values origin df = Return ranked /\
    Permutation frame ranked.
Proof.
  intros Hsv Hfew Hframe. exists (head 5 (sort_values frame)). split.
  - unfold top_5. rewrite Hframe. reflexivity.
  - unfold head. rewrite firstn_all2.
    + apply (sort_values_perm Hsv).
    + rewrite <- (Permutation_length (sort_values_perm Hsv _)).
      rewrite (with_geo_dist_length _ _ _ Hframe). exact Hfew.
Qed.

(** X10, witness: the three facilities of the ranking scenario. *)
Lemma top_5_of_few_is_all_witness :
  exists frame ranked,
    with_geo_dist Sample.geodesic Sample.origin
      [Sample.C; Sample.B; Sample.A] = Return frame /\
    top_5 Sample.geodesic stable_sort Sample.origin
      [Sample.C; Sample.B; Sample.A] = Return ranked /\
    Permutation frame ranked.
Proof.
  eexists.
  assert (Hframe : with_geo_dist Sample.geodesic Sample.origin
                     [Sample.C; Sample.B; Sample.A] = Return _)
    by (vm_compute; reflexivity).
  destruct (@top_5_of_few_is_all Sample.geodesic stable_sort Sample.origin
              [Sample.C; Sample.B; Sample.A] _ stable_sort_spec
              ltac:(cbn; lia) Hframe) as [ranked [Hranked Hperm]].
  exists ranked. split; [ exact Hframe | split; assumption ].
Defined.

(** X11.  When no two candidates are at equal distance, the ranking does
    not depend on the order of the rows in the table, nor on which sort
    does the sorting. *)
Theorem top_5_ignores_row_order
    (geodesic_km : coords -> coords -> result float)
    (sort_values sort_values' : list Ranked -> list Ranked)
    (origin : coords) (df df' : DataFrame) (frame : list Ranked) :
  sort_values_spec sort_values ->
  sort_values_spec sort_values' ->
  Permutation df df' ->
  with_geo_dist geodesic_km origin df = Return frame ->
  no_ties frame ->
  top_5 geodesic_km sort_values origin df
  = top_5 geodesic_km sort_values' origin df'.
Proof.
  intros Hsv Hsv' Hperm Hframe Hties.
  pose proof Hframe as Hrel.
  apply with_geo_dist_Return in Hrel. destruct Hrel as [Hrows Hrel].
  destruct (Permutation_Forall2 Hperm Hrel) as [frame' [Hl Hrel']].
  assert (Hframe' : with_geo_dist geodesic_km origin df' = Return frame').
  { apply with_geo_dist_Return. split; [ | exact Hrel' ].
    intros Hnil. subst df'. apply Permutation_sym in Hperm.
    apply Permutation_nil in Hperm. contradiction. }
  unfold top_5. rewrite Hframe, Hframe'. do 2 f_equal.
  apply sorted_unique.
  - rewrite <- (sort_values_perm Hsv frame),
            <- (sort_values_perm Hsv' frame').
    exact Hl.
  - apply (no_ties_perm (sort_values_perm Hsv frame)). exact Hties.
  - apply Sorted_strongly, (sort_values_sorted Hsv).
  - apply Sorted_strongly, (sort_values_sorted Hsv').
Qed.

(** X11, witness: the ranking scenario with its rows in two orders and
    two sorts. *)
Lemma top_5_ignores_row_order_witness :
  top_5 Sample.geodesic stable_sort Sample.origin
    [Sample.C; Sample.B; Sample.A]
  = top_5 Sample.geodesic reversing_sort Sample.origin
      [Sample.A; Sample.C; Sample.B].
Proof.
  eapply (@top_5_ignores_row_order Sample.geodesic stable_sort reversing_sort
            Sample.origin [Sample.C; Sample.B; Sample.A]
            [Sample.A; Sample.C; Sample.B] _
            stable_sort_spec reversing_sort_spec).
  - apply Permutation_sym, (Permutation_cons_app [Sample.C; Sample.B] []).
    reflexivity.
  - vm_compute. reflexivity.
  - unfold no_ties.
    repeat first [ apply FOP_nil | apply FOP_cons
                 | apply Forall_nil | apply Forall_cons ];
      vm_compute; reflexivity.
Defined.

(** X22.  Whatever sort fits the contract of [sort_values], the ranking
    has, position by position, the distances of the ranking by a stable
    sort; which of the rows at one distance stands at which position is
    not fixed, nor, when rows at one distance stand at either side of the
    fifth position, which of them are kept.  When no two candidates are
    at equal distance the ranking is exactly that of the stable sort. *)
Theorem top_5_determined_up_to_ties
    (geodesic_km : coords -> coords -> result float)
    (sort_values : list Ranked -> list Ranked)
    (origin : coords) (df : DataFrame) (frame ranked : list Ranked) :
  sort_values_spec sort_values ->
  with_geo_dist geodesic_km origin df = Return frame ->
  top_5 geodesic_km sort_values origin df = Return ranked ->
  let stable := head 5 (stable_sort frame) in
  Forall2 same_distance ranked stable /\
  (no_ties frame -> ranked = stable).
Proof.
  intros Hsv Hframe Hranked stable. subst stable.
  unfold top_5 in Hranked. rewrite Hframe in Hranked.
  assert (Hr : ranked = head 5 (sort_values frame)) by congruence.
  subst ranked.
  assert (Hperm : Permutation (sort_values frame) (stable_sort frame)).
  { rewrite <- (sort_values_perm Hsv frame).
    apply (sort_values_perm stable_sort_spec). }
  assert (H1 : StronglySorted by_geo_dist (sort_values frame))
    by apply Sorted_strongly, (sort_values_sorted Hsv).
  assert (H2 : StronglySorted by_geo_dist (stable_sort frame))
    by apply Sorted_strongly, (sort_values_sorted stable_sort_spec).
  split.
  - apply Forall2_head, sorted_same_distances; assumption.
  - intros Hties. f_equal. apply sorted_unique; try assumption.
    apply (no_ties_perm (sort_values_perm Hsv frame)). exact Hties.
Qed.

(** X22, witness: the clinic and the lab are at one distance; ranked by
    the sort that reverses them, the two positions still carry that
    distance. *)
Lemma top_5_determined_up_to_ties_witness :
  exists frame ranked,
    with_geo_dist Sample.geodesic Sample.origin [Sample.Clinic; Sample.Lab]
    = Return frame /\
    top_5 Sample.geodesic reversing_sort Sample.origin
      [Sample.Clinic; Sample.Lab] = Return ranked /\
    Forall2 same_distance ranked (head 5 (stable_sort frame)).
Proof.
  eexists. eexists.
  assert (Hframe : with_geo_dist Sample.geodesic Sample.origin
                     [Sample.Clinic; Sample.Lab] = Return _)
    by (vm_compute; reflexivity).
  assert (Hranked : top_5 Sample.geodesic reversing_sort Sample.origin
                      [Sample.Clinic; Sample.Lab] = Return _)
    by (vm_compute; reflexivity).
  split; [ exact Hframe | split; [ exact Hranked | ] ].
  exact (proj1 (@top_5_determined_up_to_ties Sample.geodesic reversing_sort
                  Sample.origin [Sample.Clinic; Sample.Lab] _ _
                  reversing_sort_spec Hframe Hranked)).
Defined.

(** ** Further properties of the drive time *)

(** X12.  An expander shows the drive metrics exactly when a key was
    typed, the routing service returned a response whose first feature
    has a summary with a numeric duration and a numeric distance, and
    the duration in minutes is not zero; the metrics are then the
    duration divided by 60 and the distance divided by 1000.  In every
    other case it shows the straight-line distance of the row. *)
Theorem drive_metrics_shown_iff
    (directions : string -> coords -> coords -> result value)
    (user_api_key : string) (u_lat u_lon : float) (r : Ranked)
    (drive_mins drive_km : float) :
  (show directions user_api_key u_lat u_lon r
   = expander_of r (Drive drive_mins drive_km) <->
   user_api_key <> ""%string /\ truthy drive_mins = true /\
   exists routes summary duration distance,
     directions user_api_key (u_lon, u_lat)
       (longitude (row r), latitude (row r)) = Return routes /\
     route_summary routes = Some summary /\
     getitem summary "duration" = Some duration /\
     truediv duration 60 = Some drive_mins /\
     getitem summary "distance" = Some distance /\
     truediv distance 1000 = Some drive_km) /\
  (show directions user_api_key u_lat u_lon r
   = expander_of r (StraightLine (geo_dist r)) \/
   exists m k,
     show directions user_api_key u_lat u_lon r = expander_of r (Drive m k)).
Proof.
  split; [ split | ].
  - intros Hshow. rewrite show_is_expander in Hshow.
    unfold expander_of in Hshow. injection Hshow as Hshown.
    unfold shown_metrics in Hshown.
    destruct (drive_time directions user_api_key u_lat u_lon r)
      as [[m k] | ] eqn:Hdrive; [ | discriminate ].
    destruct (truthy m) eqn:Hm; [ | discriminate ].
    injection Hshown as -> ->.
    unfold drive_time in Hdrive.
    destruct (truthy_str user_api_key) eqn:Hkey; [ | discriminate ].
    split; [ apply truthy_str_true; exact Hkey | ].
    split; [ exact Hm | ].
    unfold get_drive_time in Hdrive.
    destruct (directions user_api_key _ _) as [routes | e];
      [ | discriminate ].
    apply read_summary_Some in Hdrive.
    destruct Hdrive as [summary [duration [distance H]]].
    exists routes, summary, duration, distance. split; [ reflexivity | exact H ].
  - intros [Hkey [Hm [routes [summary [duration [distance [Hr H]]]]]]].
    rewrite show_is_expander. unfold drive_time, get_drive_time.
    rewrite (proj2 (truthy_str_true user_api_key) Hkey), Hr.
    rewrite (proj2 (read_summary_Some routes drive_mins drive_km)
               (ex_intro _ summary (ex_intro _ duration
                  (ex_intro _ distance H)))).
    unfold shown_metrics. rewrite Hm. reflexivity.
  - rewrite show_is_expander. unfold shown_metrics.
    destruct (drive_time directions user_api_key u_lat u_lon r)
      as [[m k] | ]; [ | left; reflexivity ].
    destruct (truthy m); [ right; exists m, k | left ]; reflexivity.
Qed.

(** X12, witness: with the key "k" the sample service reports 1200
    seconds and 8500.5 metres, shown as 20 minutes and 8.5005 km. *)
Lemma drive_metrics_shown_iff_witness :
  let r := {| row := Sample.A; geo_dist := Sample.dec 2 2 |} in
  show Sample.directions "k" (fst Sample.origin) (snd Sample.origin) r
  = expander_of r (Drive (of_Z 20)
                         (PyFloat.div (Sample.dec 85005 1) (of_Z 1000))).
Proof.
  intros r.
  apply (proj2 (proj1 (@drive_metrics_shown_iff Sample.directions "k"
                         (fst Sample.origin) (snd Sample.origin) r
                         (of_Z 20)
                         (PyFloat.div (Sample.dec 85005 1) (of_Z 1000))))).
  split; [ discriminate | split; [ reflexivity | ] ].
  exists (Sample.geojson [("distance", PFloat (Sample.dec 85005 1));
                          ("duration", PInt 1200)]%string),
         (PDict [("distance", PFloat (Sample.dec 85005 1));
                 ("duration", PInt 1200)]%string),
         (PInt 1200), (PFloat (Sample.dec 85005 1)).
  repeat split; vm_compute; reflexivity.
Defined.

(** ** Further properties of the loaded table *)

Lemma filter_subsequence (A : Type) (f : A -> bool) (l : list A) :
  subsequence (filter f l) l.
Proof.
  induction l as [ | x l IH ]; cbn; [ apply subsequence_nil | ].
  destruct (f x); [ apply subsequence_keep | apply subsequence_skip ];
    exact IH.
Qed.

Lemma filter_length_le (A : Type) (f : A -> bool) (l : list A) :
  length (filter f l) <= length l.
Proof.
  induction l as [ | x l IH ]; cbn; [ lia | ].
  destruct (f x); cbn; lia.
Qed.

Lemma filter_all_iff (A : Type) (f : A -> bool) (l : list A) :
  filter f l = l <-> forall x, In x l -> f x = true.
Proof.
  induction l as [ | x l IH ]; cbn.
  - split; [ intros _ y [] | reflexivity ].
  - destruct (f x) eqn:Hx; split.
    + intros H. injection H as H. intros y [<- | Hy];
        [ exact Hx | apply IH; assumption ].
    + intros H. f_equal. apply IH. intros y Hy. apply H. right. exact Hy.
    + intros H. pose proof (filter_length_le f l) as Hle.
      rewrite H in Hle. cbn in Hle. lia.
    + intros H. specialize (H x (or_introl eq_refl)). congruence.
Qed.

Lemma filter_none_iff (A : Type) (f : A -> bool) (l : list A) :
  filter f l = [] <-> forall x, In x l -> f x = false.
Proof.
  induction l as [ | x l IH ]; cbn.
  - split; [ intros _ y [] | reflexivity ].
  - destruct (f x) eqn:Hx; split.
    + discriminate.
    + intros H. specialize (H x (or_introl eq_refl)). congruence.
    + intros H y [<- | Hy]; [ exact Hx | apply IH; assumption ].
    + intros H. apply IH. intros y Hy. apply H. right. exact Hy.
Qed.

(** X13.  Loading keeps the rows of the file in their order, only
    leaving some out; it returns the file's rows unchanged exactly when
    every row has both coordinates; and loading what was loaded changes
    nothing. *)
Theorem load_data_keeps_order (df : DataFrame) :
  let data := snd (load_data (Return df)) in
  subsequence data df /\
  (data = df <-> forall r, In r df -> notna r = true) /\
  load_data (Return data) = ([], data).
Proof.
  cbn [load_data snd]. unfold dropna. split; [ | split ].
  - apply filter_subsequence.
  - apply filter_all_iff.
  - f_equal. apply filter_all_iff. intros r Hr.
    apply filter_In in Hr. apply Hr.
Qed.

(** X14.  The loaded table is empty exactly when the file could not be
    read or every one of its rows misses a coordinate, and an error
    message is put on the page exactly when the file could not be
    read: a file without a single placed row loads silently into an
    empty table. *)
Theorem load_data_empty_iff (read_csv : result DataFrame) :
  (snd (load_data read_csv) = [] <->
   (exists e, read_csv = Raise e) \/
   (exists df, read_csv = Return df /\
               forall r, In r df -> notna r = false)) /\
  (fst (load_data read_csv) <> [] <-> exists e, read_csv = Raise e).
Proof.
  destruct read_csv as [df | e]; cbn [load_data fst snd]; split; split.
  - intros H. right. exists df. split; [ reflexivity | ].
    apply filter_none_iff. exact H.
  - intros [[e He] | [df' [Heq Hall]]]; [ discriminate | ].
    injection Heq as <-. apply filter_none_iff. exact Hall.
  - intros H. contradiction.
  - intros [e He]. discriminate.
  - intros _. left. exists e. reflexivity.
  - reflexivity.
  - intros _. exists e. reflexivity.
  - intros _. discriminate.
Qed.

(** ** The select boxes and the map explorer *)

Section Unique.

Variable A : Type.
Variable eqb : A -> A -> bool.
Hypothesis eqb_eq : forall a b, eqb a b = true <-> a = b.

Lemma existsb_eqb_In (x : A) (l : list A) :
  existsb (eqb x) l = true <-> In x l.
Proof.
  rewrite existsb_exists. split.
  - intros [y [Hy Heq]]. apply eqb_eq in Heq. subst. exact Hy.
  - intros Hx. exists x. split; [ exact Hx | apply eqb_eq; reflexivity ].
Qed.

Lemma unique_from_In (l seen : list A) (x : A) :
  In x (unique_from eqb seen l) <-> In x l /\ ~ In x seen.
Proof.
  revert seen. induction l as [ | y l IH ]; intros seen; cbn.
  - tauto.
  - destruct (existsb (eqb y) seen) eqn:Hy.
    + apply existsb_eqb_In in Hy. rewrite IH. split.
      * intros [Hl Hs]. split; [ right; exact Hl | exact Hs ].
      * intros [[<- | Hl] Hs]; [ contradiction | split; assumption ].
    + assert (Hy' : ~ In y seen).
      { intros H. apply existsb_eqb_In in H. congruence. }
      cbn. rewrite IH. cbn. split.
      * intros [<- | [Hl Hs]]; [ split; [ left; reflexivity | exact Hy' ] | ].
        split; [ right; exact Hl | tauto ].
      * intros [[<- | Hl] Hs]; [ left; reflexivity | ].
        destruct (eqb y x) eqn:Hyx.
        -- left. apply eqb_eq. exact Hyx.
        -- right. split; [ exact Hl | ].
           intros [<- | H]; [ | contradiction ].
           assert (eqb y y = true) by (apply eqb_eq; reflexivity).
           congruence.
Qed.

Lemma unique_from_NoDup (l seen : list A) : NoDup (unique_from eqb seen l).
Proof.
  revert seen. induction l as [ | y l IH ]; intros seen; cbn.
  - constructor.
  - destruct (existsb (eqb y) seen); [ apply IH | ].
    constructor; [ | apply IH ].
    rewrite unique_from_In. intros [_ H]. apply H. left. reflexivity.
Qed.

Lemma unique_In (l : list A) (x : A) : In x (unique eqb l) <-> In x l.
Proof. unfold unique. rewrite unique_from_In. cbn. tauto. Qed.

Lemma unique_NoDup (l : list A) : NoDup (unique eqb l).
Proof. apply unique_from_NoDup. Qed.

End Unique.

Lemma cell_eqb_eq (c1 c2 : cell) : cell_eqb c1 c2 = true <-> c1 = c2.
Proof.
  destruct c1 as [s1 | ], c2 as [s2 | ]; cbn;
    try (split; [ discriminate | congruence ]).
  - rewrite String.eqb_eq. split; congruence.
  - split; reflexivity.
Qed.

Lemma insert_str_perm (x : string) (l : list string) :
  Permutation (x :: l) (insert_str x l).
Proof.
  induction l as [ | y l IH ]; cbn.
  - reflexivity.
  - destruct (String.leb x y).
    + reflexivity.
    + rewrite perm_swap. apply perm_skip. exact IH.
Qed.

Lemma sorted_perm (l : list string) : Permutation l (sorted l).
Proof.
  induction l as [ | x l IH ]; cbn.
  - constructor.
  - rewrite <- insert_str_perm. apply perm_skip. exact IH.
Qed.

Lemma insert_str_sorted (x : string) (l : list string) :
  Sorted (fun a b => String.leb a b = true) l ->
  Sorted (fun a b => String.leb a b = true) (insert_str x l).
Proof.
  induction 1 as [ | y l Hl IH Hy ]; cbn.
  - repeat constructor.
  - destruct (String.leb x y) eqn:Hxy.
    + constructor; [ constructor; assumption | constructor; exact Hxy ].
    + constructor; [ exact IH | ].
      assert (Hyx : String.leb y x = true).
      { destruct (String.leb_total x y) as [H | H]; congruence. }
      destruct l as [ | z l ]; cbn.
      * constructor. exact Hyx.
      * destruct (String.leb x z); constructor;
          [ exact Hyx | inversion Hy; assumption ].
Qed.

Lemma sorted_Sorted (l : list string) :
  Sorted (fun a b => String.leb a b = true) (sorted l).
Proof.
  induction l as [ | x l IH ]; cbn.
  - constructor.
  - apply insert_str_sorted. exact IH.
Qed.

Lemma sorted_unique_In (l : list string) (s : string) :
  In s (sorted (unique String.eqb l)) <-> In s l.
Proof.
  rewrite <- (@unique_In _ _ String.eqb_eq l s). split.
  - apply Permutation_in, Permutation_sym, sorted_perm.
  - apply Permutation_in, sorted_perm.
Qed.

Lemma isin_str_true (values : list string) (c : cell) :
  isin_str values c = true <-> exists l, c = Some l /\ In l values.
Proof.
  destruct c as [s | ]; cbn.
  - rewrite (@existsb_eqb_In _ _ String.eqb_eq). split.
    + intros H. exists s. split; [ reflexivity | exact H ].
    + intros [l [Heq H]]. injection Heq as ->. exact H.
  - split; [ discriminate | intros [l [Heq _]]; discriminate ].
Qed.

Lemma isin_true (values : list cell) (c : cell) :
  isin values c = true <-> In c values.
Proof. apply (@existsb_eqb_In _ _ cell_eqb_eq). Qed.

Lemma state_data_In (data : DataFrame) (s : string) (r : Facility) :
  In r (state_data data s) <-> In r data /\ state r = Some s.
Proof. apply candidates_In. Qed.

Lemma states_In (data : DataFrame) (s : string) :
  In s (states data) <-> exists r, In r data /\ astype_str (state r) = s.
Proof.
  unfold states. rewrite sorted_unique_In, in_map_iff. split.
  - intros [r [Heq Hr]]. exists r. split; assumption.
  - intros [r [Hr Heq]]. exists r. split; assumption.
Qed.

(** A state offered by the select box has facilities, unless it is the
    "nan" of a missing cell. *)
Lemma option_has_candidates (data : DataFrame) (s : string) :
  In s (states data) -> s <> "nan"%string -> candidates data s <> [].
Proof.
  intros Hs Hnan Hnone. apply states_In in Hs. destruct Hs as [r [Hr Hstr]].
  destruct (state r) as [s' | ] eqn:Hst; cbn in Hstr; [ subst s' | congruence ].
  assert (Hc : In r (candidates data s))
    by (apply candidates_In; split; assumption).
  rewrite Hnone in Hc. destruct Hc.
Qed.

(** X15.  The options of the two state select boxes are the texts of the
    state cells of the table, a missing cell giving "nan": each once, in
    ascending order. *)
Theorem states_are_the_distinct_states (data : DataFrame) :
  (forall s,
     In s (states data) <->
     exists r, In r data /\ astype_str (state r) = s) /\
  NoDup (states data) /\
  Sorted (fun a b => String.leb a b = true) (states data).
Proof.
  split; [ | split ].
  - intros s. apply states_In.
  - unfold states.
    apply (Permutation_NoDup (sorted_perm _)).
    apply (@unique_NoDup _ _ String.eqb_eq).
  - apply sorted_Sorted.
Qed.

(** X16.  For a state taken from the select box, the table has no
    facility of that state exactly when the option is the "nan" that
    stands for rows without a state and no row carries the text "nan"
    as its state: every other option has facilities. *)
Theorem only_nan_option_has_no_facilities (data : DataFrame) (s : string) :
  In s (states data) ->
  (candidates data s = [] <->
   s = "nan"%string /\
   forall r, In r data -> state r <> Some "nan"%string).
Proof.
  intros Hs. split.
  - intros Hnone.
    assert (Hnan : s = "nan"%string).
    { destruct (string_dec s "nan") as [H | H]; [ exact H | ].
      destruct (option_has_candidates data Hs H Hnone). }
    split; [ exact Hnan | ]. subst s.
    intros r Hr Hst.
    assert (Hc : In r (candidates data "nan"))
      by (apply candidates_In; split; assumption).
    rewrite Hnone in Hc. destruct Hc.
  - intros [-> Hnone]. apply candidates_none. exact Hnone.
Qed.

(** X16, witness: the gazetteer has a row without a state, so "nan" is an
    option, and it has no facility. *)
Lemma only_nan_option_has_no_facilities_witness :
  In "nan"%string (states Gazetteer.table) /\
  (candidates Gazetteer.table "nan" = [] <->
   "nan"%string = "nan"%string /\
   forall r, In r Gazetteer.table -> state r <> Some "nan"%string).
Proof.
  assert (Hin : In "nan"%string (states Gazetteer.table)).
  { vm_compute. right. right. left. reflexivity. }
  split; [ exact Hin | ].
  exact (@only_nan_option_has_no_facilities Gazetteer.table "nan" Hin).
Defined.

(** X17.  For a state picked from the select box other than "nan", the
    emergency finder never reports "No facilities found in this state.",
    whatever the address, the key and the services. *)
Theorem listed_state_never_lacks_facilities
    (geocode : string -> result (option coords))
    (directions : string -> coords -> coords -> result value)
    (geodesic_km : coords -> coords -> result float)
    (sort_values : list Ranked -> list Ranked)
    (data : DataFrame) (find_btn : bool)
    (user_loc confirm_state user_api_key : string) :
  In confirm_state (states data) ->
  confirm_state <> "nan"%string ->
  ~ In (Error no_facilities)
       (find_closest_help geocode directions geodesic_km sort_values data
          find_btn user_loc confirm_state user_api_key).
Proof.
  intros Hlisted Hnan Hin.
  pose proof (option_has_candidates data Hlisted Hnan) as Hsome.
  destruct find_btn;
    [ | rewrite finder_idle in Hin by (left; reflexivity); destruct Hin ].
  destruct (string_dec user_loc "") as [Hloc | Hloc];
    [ rewrite finder_idle in Hin by (right; exact Hloc); destruct Hin | ].
  pose proof (@finder_outcome geocode directions geodesic_km sort_values
                data user_loc confirm_state user_api_key Hloc) as Ho.
  inversion Ho as [ Hgeo Hp | u_lat u_lon Hgeo Hlat Hp
                  | u_lat u_lon Hgeo Hlat Hc Hp
                  | u_lat u_lon ranked Hgeo Hlat Hc Htop Hp
                  | u_lat u_lon e' Hgeo Hlat Hc Htop Hp ];
    rewrite <- Hp in Hin.
  - destruct Hin as [Hin | []]. discriminate.
  - destruct Hin as [Hin | []]. discriminate.
  - contradiction.
  - destruct Hin as [Hin | [Hin | Hin]]; try discriminate.
    apply In_map_show_Error in Hin. destruct Hin.
  - destruct Hin as [Hin | [Hin | []]]; discriminate.
Qed.

(** X17, witness: Oyo is listed for the gazetteer. *)
Lemma listed_state_never_lacks_facilities_witness :
  ~ In (Error no_facilities)
       (find_closest_help Sample.geocode Sample.directions Sample.geodesic
          stable_sort Gazetteer.table true Sample.bodija "Oyo" "").
Proof.
  apply (@listed_state_never_lacks_facilities Sample.geocode
           Sample.directions Sample.geodesic stable_sort Gazetteer.table true
           Sample.bodija "Oyo" "").
  - vm_compute. right. left. reflexivity.
  - discriminate.
Defined.

(** X18.  The rows on the map are the rows of the table in the selected
    state that pass both multiselects, a multiselect without selection
    letting every row pass: a row passes the LGA selection when its LGA
    is one of the selected texts, and the level selection when its level
    is one of the selected values (a missing level matching the missing
    value only). *)
Theorem map_df_In (data : DataFrame) (selected_state : string)
    (selected_lga : list string) (selected_level : list cell)
    (r : Facility) :
  In r (map_df data selected_state selected_lga selected_level) <->
  In r data /\ state r = Some selected_state /\
  (selected_lga = [] \/ exists l, lga r = Some l /\ In l selected_lga) /\
  (selected_level = [] \/ In (facility_level r) selected_level).
Proof.
  unfold map_df.
  assert (Hlga :
    In r match selected_lga with
         | [] => state_data data selected_state
         | _ :: _ => filter (fun r => isin_str selected_lga (lga r))
                            (state_data data selected_state)
         end <->
    (In r data /\ state r = Some selected_state) /\
    (selected_lga = [] \/ exists l, lga r = Some l /\ In l selected_lga)).
  { destruct selected_lga as [ | l0 ls ].
    - rewrite state_data_In. split; [ intros H; split; [ exact H | left; reflexivity ] | tauto ].
    - rewrite filter_In, state_data_In, isin_str_true. split.
      + intros [H1 H2]. split; [ exact H1 | right; exact H2 ].
      + intros [H1 [H2 | H2]]; [ discriminate | split; assumption ]. }
  destruct selected_level as [ | v0 vs ].
  - rewrite Hlga. split.
    + intros [[H1 H2] H3]. repeat split; try assumption. left. reflexivity.
    + intros [H1 [H2 [H3 _]]]. repeat split; assumption.
  - rewrite filter_In, Hlga, isin_true. split.
    + intros [[[H1 H2] H3] H4]. repeat split; try assumption. right. exact H4.
    + intros [H1 [H2 [H3 [H4 | H4]]]]; [ discriminate | ].
      repeat split; assumption.
Qed.

(** X19.  A single selection taken from the options offered never
    empties the map: one LGA of the list (other than the "nan" of a
    missing cell), one level of the list, or a listed state (other than
    "nan") with no further selection, each leaves at least one row. *)
Theorem single_option_never_empties_the_map
    (data : DataFrame) (selected_state : string) :
  (forall l,
     In l (lgas data selected_state) -> l <> "nan"%string ->
     map_df data selected_state [l] [] <> []) /\
  (forall v,
     In v (levels data selected_state) ->
     map_df data selected_state [] [v] <> []) /\
  (In selected_state (states data) -> selected_state <> "nan"%string ->
   map_df data selected_state [] [] <> []).
Proof.
  assert (Hne : forall (r : Facility) L V,
            In r (map_df data selected_state L V) ->
            map_df data selected_state L V <> []).
  { intros r L V Hr Hnil. rewrite Hnil in Hr. destruct Hr. }
  split; [ | split ].
  - intros l Hl Hnan. unfold lgas in Hl.
    rewrite sorted_unique_In, in_map_iff in Hl.
    destruct Hl as [r [Hstr Hr]]. apply state_data_In in Hr.
    apply (Hne r). apply map_df_In.
    destruct Hr as [Hdata Hst]. repeat split; try assumption.
    + right. exists l. split; [ | left; reflexivity ].
      destruct (lga r) as [l' | ]; cbn in Hstr; congruence.
    + left. reflexivity.
  - intros v Hv. unfold levels in Hv.
    rewrite (@unique_In _ _ cell_eqb_eq), in_map_iff in Hv.
    destruct Hv as [r [Hlevel Hr]]. apply state_data_In in Hr.
    apply (Hne r). apply map_df_In.
    destruct Hr as [Hdata Hst]. repeat split; try assumption.
    + left. reflexivity.
    + right. left. symmetry. exact Hlevel.
  - intros Hs Hnan Hnil.
    apply (option_has_candidates data Hs Hnan). exact Hnil.
Qed.

(** X19, witness: for Oyo in the gazetteer, the LGA "Iseyin", the level
    "Secondary" and the state alone each leave rows on the map. *)
Lemma single_option_never_empties_the_map_witness :
  map_df Gazetteer.table "Oyo" ["Iseyin"%string] [] <> [] /\
  map_df Gazetteer.table "Oyo" [] [Some "Secondary"%string] <> [] /\
  map_df Gazetteer.table "Oyo" [] [] <> [].
Proof.
  destruct (@single_option_never_empties_the_map Gazetteer.table "Oyo")
    as [Hlga [Hlevel Hstate]].
  split; [ | split ].
  - apply Hlga; [ vm_compute; right; left; reflexivity | discriminate ].
  - apply Hlevel. vm_compute. left. reflexivity.
  - apply Hstate; [ vm_compute; right; left; reflexivity | discriminate ].
Defined.

Lemma subsequence_refl (A : Type) (l : list A) : subsequence l l.
Proof.
  induction l; [ apply subsequence_nil | apply subsequence_keep; assumption ].
Qed.

Lemma subsequence_filter (A : Type) (f : A -> bool) (l1 l2 : list A) :
  subsequence l1 l2 -> subsequence (filter f l1) (filter f l2).
Proof.
  induction 1 as [ l | x l1 l2 _ IH | x l1 l2 _ IH ]; cbn.
  - apply subsequence_nil.
  - destruct (f x); [ apply subsequence_skip | ]; exact IH.
  - destruct (f x); [ apply subsequence_keep | ]; exact IH.
Qed.

Lemma filter_subsequence_mono (A : Type) (f g : A -> bool) (l : list A) :
  (forall x, f x = true -> g x = true) ->
  subsequence (filter f l) (filter g l).
Proof.
  intros Hfg. induction l as [ | x l IH ]; cbn; [ apply subsequence_nil | ].
  destruct (f x) eqn:Hf.
  - rewrite (Hfg x Hf). apply subsequence_keep. exact IH.
  - destruct (g x); [ apply subsequence_skip | ]; exact IH.
Qed.

(** X20.  Selections only narrow the map, and selecting more only widens
    it: the rows with a selection are among the rows without it, in the
    same order, and a selection that is not empty gives rows that every
    larger selection gives too. *)
Theorem map_df_narrows_and_widens (data : DataFrame) (selected_state : string)
    (selected_lga selected_lga' : list string)
    (selected_level selected_level' : list cell) :
  subsequence (map_df data selected_state selected_lga selected_level)
              (map_df data selected_state [] selected_level) /\
  subsequence (map_df data selected_state selected_lga selected_level)
              (map_df data selected_state selected_lga []) /\
  (selected_lga <> [] -> incl selected_lga selected_lga' ->
   subsequence (map_df data selected_state selected_lga selected_level)
               (map_df data selected_state selected_lga' selected_level)) /\
  (selected_level <> [] -> incl selected_level selected_level' ->
   subsequence (map_df data selected_state selected_lga selected_level)
               (map_df data selected_state selected_lga selected_level')).
Proof.
  unfold map_df.
  set (sd := state_data data selected_state).
  assert (Hlevel : forall l1 l2 : DataFrame,
            subsequence l1 l2 ->
            subsequence
              match selected_level with
              | [] => l1
              | _ :: _ => filter (fun r => isin selected_level
                                             (facility_level r)) l1
              end
              match selected_level with
              | [] => l2
              | _ :: _ => filter (fun r => isin selected_level
                                             (facility_level r)) l2
              end).
  { intros l1 l2 H. destruct selected_level;
      [ exact H | apply subsequence_filter; exact H ]. }
  split; [ | split; [ | split ] ].
  - apply Hlevel. destruct selected_lga;
      [ apply subsequence_refl | apply filter_subsequence ].
  - destruct selected_level;
      [ apply subsequence_refl | apply filter_subsequence ].
  - intros Hne Hincl. apply Hlevel.
    destruct selected_lga as [ | l0 ls ]; [ congruence | ].
    destruct selected_lga' as [ | l0' ls' ];
      [ destruct (Hincl l0 (or_introl eq_refl)) | ].
    apply filter_subsequence_mono. intros r Hr.
    apply isin_str_true in Hr. destruct Hr as [l [Hl Hin]].
    apply isin_str_true. exists l. split; [ exact Hl | apply Hincl, Hin ].
  - intros Hne Hincl.
    destruct selected_level as [ | v0 vs ]; [ congruence | ].
    destruct selected_level' as [ | v0' vs' ];
      [ destruct (Hincl v0 (or_introl eq_refl)) | ].
    apply filter_subsequence_mono. intros r Hr.
    apply isin_true in Hr. apply isin_true. apply Hincl, Hr.
Qed.

(** X20, witness: in the gazetteer, adding "Ibadan North" to the selected
    LGA "Iseyin" keeps the rows of Iseyin on the map. *)
Lemma map_df_narrows_and_widens_witness :
  subsequence
    (map_df Gazetteer.table "Oyo" ["Iseyin"%string] [])
    (map_df Gazetteer.table "Oyo" ["Ibadan North"; "Iseyin"]%string []).
Proof.
  destruct (@map_df_narrows_and_widens Gazetteer.table "Oyo"
              ["Iseyin"%string] ["Ibadan North"; "Iseyin"]%string [] [])
    as [_ [_ [Hwiden _]]].
  apply Hwiden.
  - discriminate.
  - intros l [<- | []]. right. left. reflexivity.
Defined.

(** ** The share of public facilities *)




